(** * DDE Linux 2.6 page allocation: the page cache and the allocation facade

    A shallow embedding of [src/lib/dde_linux26/arch/dde_kit/page_alloc.c]
    and the properties its specification states about it.

    Values of type [unsigned long] and pointers are integers in [Z]; the
    wrap-around of the machine word is written out with [ulong].  The global
    page cache, the [struct page] objects, the byte memory and the exchange
    with the raw memory provider are fields of one [world] that every
    operation threads through. *)

From Stdlib Require Import ZArith Lia List Bool.
From stdpp Require Import base list.

Local Open Scope Z_scope.

(** ** Target configuration

    The headers [linux/gfp.h] and [asm/page.h] are not among the sources.
    The width of [unsigned long] and the values of the allocation flags are
    parameters of the development. *)

Class Platform := {
  BITS_PER_LONG : Z;   (* width of unsigned long and of pointers *)
  GFP_DMA : Z;
  GFP_ATOMIC : Z;
  GFP_KERNEL : Z;
}.

Definition NULL : Z := 0.

(** Modelled from the spec: [PAGE_SHIFT] and [PAGE_SIZE] of [asm/page.h],
    which is not among the sources; the spec fixes the page size at 4096
    bytes, [PAGE_SIZE] being [1UL << PAGE_SHIFT]. *)
Definition PAGE_SHIFT : Z := 12.
Definition PAGE_SIZE : Z := Z.shiftl 1 PAGE_SHIFT.

(** [#define DDE_PAGE_CACHE_SHIFT 10] and the two constants derived from it. *)
Definition DDE_PAGE_CACHE_SHIFT : Z := 10.
Definition DDE_PAGE_CACHE_SIZE : Z := Z.shiftl 1 DDE_PAGE_CACHE_SHIFT.
Definition DDE_PAGE_CACHE_MASK : Z := DDE_PAGE_CACHE_SIZE - 1.

(** [VIRT_TO_PAGEHASH(a)]: [(((unsigned long)a) >> PAGE_SHIFT) & DDE_PAGE_CACHE_MASK]. *)
Definition VIRT_TO_PAGEHASH (a : Z) : Z :=
  Z.land (Z.shiftr a PAGE_SHIFT) DDE_PAGE_CACHE_MASK.

(** [page_cache_entry]: the embedded [hlist_node] is the list cell that holds
    the entry; [page] is the [struct page *] it refers to. *)
Record page_cache_entry := { page : Z }.

(** What crossed the boundary to the raw memory provider. *)
Inductive provider_call :=
| LargeMalloc (size : Z) (reply : Z)
| LargeFree (addr : Z).

(** ** The world

    - [dde_linux26_page_cache]: the static array of [DDE_PAGE_CACHE_SIZE]
      chain heads, each chain from its head;
    - [page_virtual p]: the field [virtual] of the [struct page] at [p];
    - [kmalloc_next]: the next object [kmalloc] hands out;
    - [memory]: the bytes behind each address;
    - [large_malloc_replies]: what the provider answers to the coming calls
      of [dde_kit_large_malloc] ([NULL] for a denial, and once the list is
      used up);
    - [provider_calls]: the calls made to the provider so far, newest first. *)
Record world := World {
  dde_linux26_page_cache : list (list page_cache_entry);
  page_virtual : Z -> Z;
  kmalloc_next : Z;
  memory : Z -> Z;
  large_malloc_replies : list Z;
  provider_calls : list provider_call;
}.

Definition set_page_cache (c : list (list page_cache_entry)) (s : world) : world :=
  World c (page_virtual s) (kmalloc_next s) (memory s)
        (large_malloc_replies s) (provider_calls s).

Definition set_page_virtual (f : Z -> Z) (s : world) : world :=
  World (dde_linux26_page_cache s) f (kmalloc_next s) (memory s)
        (large_malloc_replies s) (provider_calls s).

Definition set_kmalloc_next (n : Z) (s : world) : world :=
  World (dde_linux26_page_cache s) (page_virtual s) n (memory s)
        (large_malloc_replies s) (provider_calls s).

Definition set_memory (m : Z -> Z) (s : world) : world :=
  World (dde_linux26_page_cache s) (page_virtual s) (kmalloc_next s) m
        (large_malloc_replies s) (provider_calls s).

Definition set_provider (rs : list Z) (cs : list provider_call) (s : world) : world :=
  World (dde_linux26_page_cache s) (page_virtual s) (kmalloc_next s) (memory s)
        rs cs.

(** [dde_linux26_page_cache[hashval]] read and written. *)
Definition bucket (s : world) (hashval : Z) : list page_cache_entry :=
  default [] (dde_linux26_page_cache s !! Z.to_nat hashval).

Definition set_bucket (hashval : Z) (h : list page_cache_entry) (s : world) : world :=
  set_page_cache (<[Z.to_nat hashval := h]> (dde_linux26_page_cache s)) s.

(** ** Outcomes and the monad of the facade *)

Inductive outcome (A : Type) :=
| Done (a : A) (s : world)        (* returned [a] *)
| AssertionFailed (s : world)     (* stopped in [dde_kit_assert] *)
| Panicked (s : world)            (* stopped in [panic] *)
| Undefined                       (* left undefined by C *)
| OutOfFuel.                      (* the loop bound of the model was reached *)

Arguments Done {A} a s.
Arguments AssertionFailed {A} s.
Arguments Panicked {A} s.
Arguments Undefined {A}.
Arguments OutOfFuel {A}.

Definition M (A : Type) : Type := world -> outcome A.

Definition ret {A} (a : A) : M A := fun s => Done a s.

Definition bind {A B} (c : M A) (k : A -> M B) : M B :=
  fun s =>
    match c s with
    | Done a s' => k a s'
    | AssertionFailed s' => AssertionFailed s'
    | Panicked s' => Panicked s'
    | Undefined => Undefined
    | OutOfFuel => OutOfFuel
    end.

Notation "'do' x <- c ; k" := (bind c (fun x => k))
  (at level 10, x name, c at level 100, k at level 200).
Notation "'run' c ; k" := (bind c (fun _ => k))
  (at level 10, c at level 100, k at level 200).

(** A step of the code that only changes the world. *)
Definition modify (f : world -> world) : M unit := fun s => Done tt (f s).

(** Modelled from the spec: [dde_kit_assert] of [dde_kit/assert.h], which is
    not among the sources.  A violated assertion is a programming error of
    the caller: the call is aborted there, not recovered. *)
Definition dde_kit_assert (b : bool) : M unit :=
  fun s => if b then Done tt s else AssertionFailed s.

(** Modelled from the spec: [panic] aborts the process with a diagnostic. *)
Definition panic {A} : M A := fun s => Panicked s.

(** ** External collaborators *)

(** Modelled from the spec: [kmalloc], which the sources only call.  Storage
    allocation for descriptors and table nodes is not modelled as failing;
    every call hands out an object that no earlier call handed out.  The
    size of the object does not enter: of a [struct page] only the field
    [virtual] is read or written. *)
Definition kmalloc (flags : Z) : M Z :=
  fun s => Done (kmalloc_next s) (set_kmalloc_next (kmalloc_next s + 1) s).

(** Modelled from the spec: the raw memory provider, consumed as
    [alloc_pages_raw(size) -> address | fail] and [free_pages_raw(address)].
    The provider's answer is taken from [large_malloc_replies]; the call is
    recorded in [provider_calls]. *)
Definition dde_kit_large_malloc (size : Z) : M Z :=
  fun s =>
    let p := hd NULL (large_malloc_replies s) in
    Done p (set_provider (tl (large_malloc_replies s))
                         (LargeMalloc size p :: provider_calls s) s).

Definition dde_kit_large_free (p : Z) : M unit :=
  fun s =>
    Done tt (set_provider (large_malloc_replies s)
                          (LargeFree p :: provider_calls s) s).

(** Modelled from the spec: [memset] of [linux/string.h] overwrites the [n]
    bytes from [p] on with [c]. *)
Fixpoint memset_bytes (m : Z -> Z) (p c : Z) (n : nat) : Z -> Z :=
  match n with
  | O => m
  | S k => memset_bytes (fun a => if a =? p then c else m a) (p + 1) c k
  end.

Arguments memset_bytes : simpl never.

Definition memset (p c n : Z) : M unit :=
  modify (fun s => set_memory (memset_bytes (memory s) p c (Z.to_nat n)) s).

(** ** hlist primitives *)

Definition hlist_add_head (e : page_cache_entry) (h : list page_cache_entry) :
  list page_cache_entry := e :: h.

(** [hlist_del(v)]: unlink the node at position [v] of its chain. *)
Definition hlist_del (v : nat) (h : list page_cache_entry) :
  list page_cache_entry := delete v h.

(** [hlist_for_each_entry(e, hn, h, list) body]: run [body] on the entries of
    the chain from its head; [hn] is the cursor, the body's flag says whether
    it left the loop ([break], or [return] with the value computed so far). *)
Fixpoint hlist_for_each_entry {A} (body : nat -> page_cache_entry -> A -> A * bool)
    (hn : nat) (h : list page_cache_entry) (acc : A) : A :=
  match h with
  | [] => acc
  | e :: tl =>
      let '(acc', stop) := body hn e acc in
      if stop then acc' else hlist_for_each_entry body (S hn) tl acc'
  end.

Section PageAlloc.
Context `{Platform}.

(** An [unsigned long] result, reduced to the width of the word. *)
Definition ulong (x : Z) : Z := x mod 2 ^ BITS_PER_LONG.

(** Modelled from the spec: [PAGE_MASK] of [asm/page.h], the mask that
    clears the page-offset bits of an address, [~(PAGE_SIZE-1)] on
    [unsigned long]. *)
Definition PAGE_MASK : Z := ulong (Z.lnot (PAGE_SIZE - 1)).

(** ** DDE page cache *)

(** [dde_linux26_page_cache_add] *)
Definition dde_linux26_page_cache_add (p : Z) : M unit :=
  fun s =>
    let hashval := VIRT_TO_PAGEHASH (page_virtual s p) in
    (do _e <- kmalloc GFP_KERNEL;
     let e := {| page := p |} in
     modify (fun s => set_bucket hashval (hlist_add_head e (bucket s hashval)) s)) s.

(** [dde_linux26_page_cache_remove].  The [if] of the loop body governs the
    assignment [v = hn] only: the [break] that follows stands outside it and
    leaves the loop after the first entry, whatever the comparison gave. *)
Definition dde_linux26_page_cache_remove (p : Z) : M unit :=
  fun s =>
    let hashval := VIRT_TO_PAGEHASH (page_virtual s p) in
    let h := bucket s hashval in
    let v :=
      hlist_for_each_entry
        (fun hn e v =>
           let v := if page_virtual s (page e) =? Z.land (page_virtual s p) PAGE_MASK
                    then Some hn else v in
           (v, true))
        0%nat h None in
    match v with
    | Some hn => modify (set_bucket hashval (hlist_del hn h)) s
    | None => ret tt s
    end.

(** [dde_linux26_page_lookup]; [None] is the [NULL] result. *)
Definition dde_linux26_page_lookup (va : Z) (s : world) : option Z :=
  let hashval := VIRT_TO_PAGEHASH va in
  let h := bucket s hashval in
  hlist_for_each_entry
    (fun hn e r =>
       if page_virtual s (page e) =? Z.land va PAGE_MASK
       then (Some (page e), true)
       else (r, false))
    0%nat h None.

(** [dde_linux26_page_cache_init]: [INIT_HLIST_HEAD] on each of the
    [DDE_PAGE_CACHE_SIZE] heads. *)
Definition dde_linux26_page_cache_init : M Z :=
  run modify (fun s =>
        fold_left (fun s i => set_bucket i [] s) (seqZ 0 DDE_PAGE_CACHE_SIZE) s);
  ret 0.

(** ** Page allocation *)

(** [x << n] on [unsigned long]; C leaves a shift by the width of the word
    or more undefined. *)
Definition shl (x n : Z) : M Z :=
  fun s =>
    if (0 <=? n) && (n <? BITS_PER_LONG)
    then Done (ulong (Z.shiftl x n)) s
    else Undefined.

(** [__get_free_pages]; [dde_kit_log] is switched off by
    [DEBUG_PAGE_ALLOC 0]. *)
Definition __get_free_pages (gfp_mask order : Z) : M Z :=
  run dde_kit_assert (negb (gfp_mask =? GFP_DMA));
  do size <- shl PAGE_SIZE order;
  do p <- dde_kit_large_malloc size;
  ret p.

(** [__alloc_pages]; [zonelist] is not used. *)
Definition __alloc_pages (gfp_mask order zonelist : Z) : M Z :=
  do ret_ <- kmalloc GFP_KERNEL;
  do v <- __get_free_pages gfp_mask order;
  run modify (fun s =>
        set_page_virtual (fun q => if q =? ret_ then v else page_virtual s q) s);
  run dde_linux26_page_cache_add ret_;
  ret ret_.

(** The world after [__alloc_pages] when the assertion holds. *)
Definition allocated (order : Z) (s : world) : world :=
  let p := kmalloc_next s in
  let r := hd NULL (large_malloc_replies s) in
  {| dde_linux26_page_cache :=
       <[Z.to_nat (VIRT_TO_PAGEHASH r) :=
           {| page := p |} :: bucket s (VIRT_TO_PAGEHASH r)]>
         (dde_linux26_page_cache s);
     page_virtual := fun q => if q =? p then r else page_virtual s q;
     kmalloc_next := p + 1 + 1;
     memory := memory s;
     large_malloc_replies := tl (large_malloc_replies s);
     provider_calls :=
       LargeMalloc (ulong (Z.shiftl PAGE_SIZE order)) r :: provider_calls s |}.

(** [get_zeroed_page] *)
Definition get_zeroed_page (gfp_mask : Z) : M Z :=
  do p <- __get_free_pages gfp_mask 0;
  run (if negb (p =? 0) then memset p 0 PAGE_SIZE else ret tt);
  ret p.

(** [free_pages] *)
Definition free_pages (addr order : Z) : M unit :=
  dde_kit_large_free addr.

(** [__free_pages] *)
Definition __free_pages (page order : Z) : M unit :=
  do virtual <- (fun s => Done (page_virtual s page) s);
  run free_pages virtual order;
  dde_linux26_page_cache_remove page.

(** ** The large hash table helper *)

(** Modelled from the spec: [ilog2] of [linux/log2.h], the position of the
    highest bit set. *)
Definition ilog2 (n : Z) : Z := Z.log2 n.

(** [for (order = 0; ((1UL << order) << PAGE_SHIFT) < size; order++);]
    The shift is undefined once [order] reaches the width of the word, so
    [BITS_PER_LONG + 1] rounds bound the loop. *)
Fixpoint order_for_size (rounds : nat) (size order : Z) : M Z :=
  match rounds with
  | O => fun _ => OutOfFuel
  | S k =>
      do pages <- shl 1 order;
      do bytes <- shl pages PAGE_SHIFT;
      if bytes <? size then order_for_size k size (ulong (order + 1))
      else ret order
  end.

(** The [do ... while (!table && size > PAGE_SIZE && --log2qty)] loop; it
    yields [table] and [log2qty] as they stand when the loop is left.
    [size] is not assigned in the loop. *)
Fixpoint table_loop (fuel : nat) (size log2qty : Z) : M (Z * Z) :=
  match fuel with
  | O => fun _ => OutOfFuel
  | S k =>
      do order <- order_for_size (S (Z.to_nat BITS_PER_LONG)) size 0;
      do table <- __get_free_pages GFP_ATOMIC order;
      if negb (table =? NULL) then ret (table, log2qty)
      else if negb (PAGE_SIZE <? size) then ret (table, log2qty)
      else
        let log2qty := ulong (log2qty - 1) in
        if log2qty =? 0 then ret (table, log2qty)
        else table_loop k size log2qty
  end.

(** What [alloc_large_system_hash] hands back: the table and the values it
    stores through [_hash_shift] and [_hash_mask]. *)
Record large_system_hash := {
  table : Z;
  hash_shift : Z;
  hash_mask : Z;
}.

(** [alloc_large_system_hash]; [tablename], [scale], [flags] and [limit]
    do not enter the computation, [printk] is not modelled. *)
Definition alloc_large_system_hash (fuel : nat) (bucketsize numentries : Z) :
  M large_system_hash :=
  let numentries := if numentries =? 0 then 1024 else numentries in
  let log2qty := ilog2 numentries in
  do size <- shl bucketsize log2qty;
  do r <- table_loop fuel size log2qty;
  let '(table, log2qty) := r in
  if table =? NULL then panic
  else ret {| table := table;
              hash_shift := log2qty mod 2 ^ 32;
              hash_mask := (Z.shiftl 1 log2qty - 1) mod 2 ^ 32 |}.

(** ** Clients of the facade

    A client allocates and frees; [live] lists the descriptors that
    [__alloc_pages] returned to it and that it has not yet freed, newest
    first. *)

Inductive op :=
| Alloc (gfp_mask order : Z)
| Free (page order : Z).

(** The provider keeps its side of the interface: it denies the request, or
    it grants a block that starts on a page boundary and is not one that a
    descriptor of the client still holds. *)
Definition grant_ok (s : world) (live : list Z) : bool :=
  let r := hd NULL (large_malloc_replies s) in
  (r =? NULL)
  || ((Z.land r PAGE_MASK =? r)
      && forallb (fun d => negb (page_virtual s d =? r)) live).

(** One operation of a client that frees only what it holds.  [None]: the
    operation is not one of such a client against such a provider, or the
    facade did not return. *)
Definition facade_step (o : op) (c : world * list Z) : option (world * list Z) :=
  let '(s, live) := c in
  match o with
  | Alloc gfp_mask order =>
      if grant_ok s live then
        match __alloc_pages gfp_mask order NULL s with
        | Done p s' => Some (s', p :: live)
        | _ => None
        end
      else None
  | Free page order =>
      if existsb (Z.eqb page) live then
        match __free_pages page order s with
        | Done _ s' => Some (s', List.filter (fun d => negb (d =? page)) live)
        | _ => None
        end
      else None
  end.

Fixpoint facade_run (ops : list op) (c : world * list Z) : option (world * list Z) :=
  match ops with
  | [] => Some c
  | o :: ops' =>
      match facade_step o c with
      | Some c' => facade_run ops' c'
      | None => None
      end
  end.

(** Operations on the cache alone, for clients that hand in pages of their
    own. *)
Inductive cache_op :=
| CacheAdd (p : Z)
| CacheRemove (p : Z).

Definition cache_step (o : cache_op) : M unit :=
  match o with
  | CacheAdd p => dde_linux26_page_cache_add p
  | CacheRemove p => dde_linux26_page_cache_remove p
  end.

Fixpoint cache_run (ops : list cache_op) : M unit :=
  match ops with
  | [] => ret tt
  | o :: ops' => run cache_step o; cache_run ops'
  end.

(** The number of entries the cache holds. *)
Definition cache_entries (s : world) : nat :=
  length (concat (dde_linux26_page_cache s)).

(** The pages that [ops] adds at the address [a], in the order of [ops]. *)
Fixpoint added_at (virtual : Z -> Z) (a : Z) (ops : list cache_op) : list Z :=
  match ops with
  | [] => []
  | CacheAdd p :: ops' =>
      if virtual p =? a then p :: added_at virtual a ops'
      else added_at virtual a ops'
  | CacheRemove _ :: ops' => added_at virtual a ops'
  end.

(** Whether [ops] removes at the page boundary [a]. *)
Fixpoint removes_at (virtual : Z -> Z) (a : Z) (ops : list cache_op) : bool :=
  match ops with
  | [] => false
  | CacheAdd _ :: ops' => removes_at virtual a ops'
  | CacheRemove p :: ops' =>
      (Z.land (virtual p) PAGE_MASK =? a) || removes_at virtual a ops'
  end.

(** The pages at the address [a] that the cache holds, in the order of their
    chain. *)
Definition entries_at (a : Z) (s : world) : list Z :=
  map page
    (List.filter (fun e => page_virtual s (page e) =? a)
                 (bucket s (VIRT_TO_PAGEHASH a))).

End PageAlloc.

(** The page of the first entry of a chain that lies at [key]: what a scan of
    the whole chain for an exact match finds. *)
Fixpoint first_match (virtual : Z -> Z) (key : Z) (h : list page_cache_entry) :
  option Z :=
  match h with
  | [] => None
  | e :: tl => if virtual (page e) =? key then Some (page e)
               else first_match virtual key tl
  end.

(** The removal as the specification words it: "masks [addr] to its page
    boundary, scans the matching bucket, removes the first exact match if
    present". *)
Fixpoint remove_first_match (virtual : Z -> Z) (key : Z) (h : list page_cache_entry) :
  list page_cache_entry :=
  match h with
  | [] => []
  | e :: tl => if virtual (page e) =? key then tl
               else e :: remove_first_match virtual key tl
  end.

Definition spec_remove `{Platform} (addr : Z) (s : world) : world :=
  set_bucket (VIRT_TO_PAGEHASH addr)
    (remove_first_match (page_virtual s) (Z.land addr PAGE_MASK)
                        (bucket s (VIRT_TO_PAGEHASH addr)))
    s.

(** What holds of a client and the world between its operations: the table
    has its [DDE_PAGE_CACHE_SIZE] chains; the chains and the client refer to
    [struct page] objects that [kmalloc] has handed out; the client holds no
    descriptor twice; and each descriptor it holds for a block that the
    provider granted lies on a page boundary and is the first of its chain
    at its address. *)
Definition client_inv `{Platform} (c : world * list Z) : Prop :=
  let '(s, live) := c in
  length (dde_linux26_page_cache s) = Z.to_nat DDE_PAGE_CACHE_SIZE /\
  (forall i e, In e (bucket s i) -> page e < kmalloc_next s) /\
  (forall d, In d live -> d < kmalloc_next s) /\
  List.NoDup live /\
  (forall d, In d live -> page_virtual s d <> NULL ->
     Z.land (page_virtual s d) PAGE_MASK = page_virtual s d /\
     first_match (page_virtual s) (page_virtual s d)
                 (bucket s (VIRT_TO_PAGEHASH (page_virtual s d))) = Some d).

(** ** A concrete target and concrete worlds *)

(** Linux 2.6 on a 32-bit x86: [__GFP_DMA] is [0x01], [GFP_ATOMIC] is
    [__GFP_HIGH], [GFP_KERNEL] is [__GFP_WAIT | __GFP_IO | __GFP_FS]. *)
Definition linux26_i386 : Platform :=
  {| BITS_PER_LONG := 32; GFP_DMA := 0x01; GFP_ATOMIC := 0x20; GFP_KERNEL := 0xd0 |}.

(** The world at boot: the static array of chain heads, no [struct page]
    yet, every byte of memory [0xaa], and a provider that will answer
    [replies]. *)
Definition boot_world (replies : list Z) : world :=
  {| dde_linux26_page_cache := replicate (Z.to_nat DDE_PAGE_CACHE_SIZE) [];
     page_virtual := fun _ => 0;
     kmalloc_next := 0x100;
     memory := fun _ => 0xaa;
     large_malloc_replies := replies;
     provider_calls := [] |}.

(** Pages that a client hands in itself: pages 1, 2 and 3 lie at [0x1000],
    pages 4 and 5 at [0x401000], in the same chain, and page 6 at [0x2000]. *)
Definition handed_in (q : Z) : Z :=
  match q with
  | 1 | 2 | 3 => 0x1000
  | 4 | 5 => 0x401000
  | 6 => 0x2000
  | _ => 0
  end.

Definition handed_in_world : world :=
  set_page_virtual handed_in (boot_world []).

(** ** Address translation *)

(** [page_to_phys].  The macro [__pa] of [asm/page.h], which is not among the
    sources, is a parameter: what the environment's translator answers for
    a virtual address. *)
Definition page_to_phys `{Platform} (__pa : Z -> Z) (p : Z) (s : world) : Z :=
  Z.land (__pa (page_virtual s p)) PAGE_MASK.

(** ** Measures of runs *)

(** The [i]-th answer the provider will give from now on. *)
Definition reply (i : nat) (s : world) : Z :=
  nth i (large_malloc_replies s) NULL.

(** The rounds of the retry loop of [alloc_large_system_hash] until
    [--log2qty] gives 0: [log2qty] itself, or, when [log2qty] is 0 to begin
    with and the decrement wraps around, the number of values of the
    word. *)
Definition retry_rounds `{Platform} (log2qty : Z) : Z :=
  if log2qty =? 0 then 2 ^ BITS_PER_LONG else log2qty.

(** [log2qty] and [size] as [alloc_large_system_hash] sets them before its
    loop. *)
Definition hash_log2qty (numentries : Z) : Z :=
  Z.log2 (if numentries =? 0 then 1024 else numentries).

Definition hash_size `{Platform} (bucketsize numentries : Z) : Z :=
  ulong (Z.shiftl bucketsize (hash_log2qty numentries)).

(** The requests one call of [alloc_large_system_hash] makes at most: one
    when [size] does not exceed a page, [retry_rounds] otherwise. *)
Definition hash_tries `{Platform} (size log2qty : Z) : Z :=
  if PAGE_SIZE <? size then retry_rounds log2qty else 1.

Fixpoint count_allocs (ops : list op) : nat :=
  match ops with
  | [] => 0
  | Alloc _ _ :: ops' => S (count_allocs ops')
  | Free _ _ :: ops' => count_allocs ops'
  end.

(** * Properties *)

Section Properties.
Context `{Platform}.

(** [PAGE_SIZE] is a value of [unsigned long]. *)
Hypothesis word_fits : PAGE_SHIFT < BITS_PER_LONG.

(** ** Page arithmetic *)

Lemma PAGE_SIZE_eq : PAGE_SIZE = 4096.
Proof. reflexivity. Qed.

Lemma word_ge_page : PAGE_SIZE <= 2 ^ BITS_PER_LONG.
Proof.
  rewrite PAGE_SIZE_eq. change 4096 with (2 ^ 12).
  apply Z.pow_le_mono_r; unfold PAGE_SHIFT in word_fits; lia.
Qed.

Lemma word_split : 2 ^ BITS_PER_LONG = PAGE_SIZE * 2 ^ (BITS_PER_LONG - PAGE_SHIFT).
Proof.
  unfold PAGE_SIZE. rewrite Z.shiftl_1_l, <- Z.pow_add_r by (unfold PAGE_SHIFT in *; lia).
  f_equal. lia.
Qed.

Lemma land_PAGE_MASK a :
  Z.land a PAGE_MASK = PAGE_SIZE * (ulong a / PAGE_SIZE).
Proof.
  unfold PAGE_MASK, ulong.
  assert (0 <= BITS_PER_LONG) by (unfold PAGE_SHIFT in word_fits; lia).
  rewrite <- !Z.land_ones by assumption.
  rewrite (Z.land_comm (Z.lnot _)), Z.land_assoc, <- Z.ldiff_land.
  change (PAGE_SIZE - 1) with (Z.ones PAGE_SHIFT).
  rewrite Z.ldiff_ones_r by (unfold PAGE_SHIFT; lia).
  rewrite Z.shiftl_mul_pow2, Z.shiftr_div_pow2 by (unfold PAGE_SHIFT; lia).
  change (2 ^ PAGE_SHIFT) with PAGE_SIZE. lia.
Qed.

Lemma ulong_small a : 0 <= a < 2 ^ BITS_PER_LONG -> ulong a = a.
Proof. intros. unfold ulong. apply Z.mod_small; assumption. Qed.

Lemma ulong_range a : 0 <= ulong a < 2 ^ BITS_PER_LONG.
Proof.
  unfold ulong. apply Z.mod_pos_bound. apply Z.pow_pos_nonneg;
    unfold PAGE_SHIFT in word_fits; lia.
Qed.

(** An address is its own page boundary exactly when it is a value of
    [unsigned long] with the page-offset bits clear. *)
Lemma page_boundary_iff a :
  Z.land a PAGE_MASK = a <-> 0 <= a < 2 ^ BITS_PER_LONG /\ a mod PAGE_SIZE = 0.
Proof.
  rewrite land_PAGE_MASK, PAGE_SIZE_eq. pose proof (ulong_range a) as Hr.
  split.
  - intros Ha.
    assert (0 <= a <= ulong a) by
      (pose proof (Z.mul_div_le (ulong a) 4096); pose proof (Z.div_pos (ulong a) 4096); lia).
    assert (Hs : ulong a = a).
    { unfold ulong in *. rewrite Z.mod_small; lia. }
    rewrite Hs in Ha. split; [lia |].
    rewrite Z.mod_eq by lia. lia.
  - intros [Hrange Hmod]. rewrite ulong_small by assumption.
    rewrite Z.mod_eq in Hmod by lia. lia.
Qed.

(** Offsets inside a page reach neither the page boundary nor the hash. *)
Lemma land_PAGE_MASK_offset a o :
  Z.land a PAGE_MASK = a -> 0 <= o < PAGE_SIZE ->
  Z.land (a + o) PAGE_MASK = a.
Proof.
  intros Ha Ho. apply page_boundary_iff in Ha as [Hr Hm].
  rewrite land_PAGE_MASK. pose proof word_split as Hw.
  rewrite PAGE_SIZE_eq in *.
  set (k := 2 ^ (BITS_PER_LONG - PAGE_SHIFT)) in *.
  apply Z.mod_divide in Hm as [q Hq]; [| lia]. subst a.
  assert (q < k) by nia.
  rewrite ulong_small by nia.
  replace (q * 4096 + o) with (o + q * 4096) by lia.
  rewrite Z.div_add by lia. rewrite Z.div_small by lia. lia.
Qed.

Lemma VIRT_TO_PAGEHASH_offset a o :
  Z.land a PAGE_MASK = a -> 0 <= o < PAGE_SIZE ->
  VIRT_TO_PAGEHASH (a + o) = VIRT_TO_PAGEHASH a.
Proof.
  intros Ha Ho. apply page_boundary_iff in Ha as [Hr Hm].
  unfold VIRT_TO_PAGEHASH. f_equal.
  rewrite !Z.shiftr_div_pow2 by (unfold PAGE_SHIFT; lia).
  change (2 ^ PAGE_SHIFT) with PAGE_SIZE. rewrite PAGE_SIZE_eq in *.
  apply Z.mod_divide in Hm as [q Hq]; [| lia]. subst a.
  replace (q * 4096 + o) with (o + q * 4096) by lia.
  rewrite Z.div_add, Z.div_mul by lia. rewrite Z.div_small by lia. lia.
Qed.

Lemma VIRT_TO_PAGEHASH_range a :
  0 <= VIRT_TO_PAGEHASH a < DDE_PAGE_CACHE_SIZE.
Proof.
  unfold VIRT_TO_PAGEHASH. change DDE_PAGE_CACHE_MASK with (Z.ones 10).
  rewrite Z.land_ones by lia. change DDE_PAGE_CACHE_SIZE with (2 ^ 10).
  apply Z.mod_pos_bound. lia.
Qed.

(** ** The cache operations, unfolded *)

Lemma bucket_set_bucket_eq s i h :
  (Z.to_nat i < length (dde_linux26_page_cache s))%nat ->
  bucket (set_bucket i h s) i = h.
Proof.
  intros Hi. unfold bucket, set_bucket. simpl.
  rewrite list_lookup_insert_eq by assumption. reflexivity.
Qed.

Lemma bucket_set_bucket_ne s i j h :
  Z.to_nat i <> Z.to_nat j ->
  bucket (set_bucket i h s) j = bucket s j.
Proof.
  intros Hij. unfold bucket, set_bucket. simpl.
  rewrite list_lookup_insert_ne by assumption. reflexivity.
Qed.

Lemma bucket_nonempty_lt s i e tl :
  bucket s i = e :: tl ->
  (Z.to_nat i < length (dde_linux26_page_cache s))%nat.
Proof.
  unfold bucket. intros Hb.
  destruct (dde_linux26_page_cache s !! Z.to_nat i) eqn:Hl; [| discriminate].
  eapply lookup_lt_Some; eassumption.
Qed.

Lemma hash_to_nat_inj a b :
  Z.to_nat (VIRT_TO_PAGEHASH a) = Z.to_nat (VIRT_TO_PAGEHASH b) ->
  VIRT_TO_PAGEHASH a = VIRT_TO_PAGEHASH b.
Proof.
  pose proof (VIRT_TO_PAGEHASH_range a). pose proof (VIRT_TO_PAGEHASH_range b). lia.
Qed.

(** Two addresses fall into the same chain, or they do not. *)
Ltac same_chain a b Heq Hneq :=
  destruct (Nat.eq_dec (Z.to_nat (VIRT_TO_PAGEHASH a)) (Z.to_nat (VIRT_TO_PAGEHASH b)))
    as [Heq | Hneq];
  [apply hash_to_nat_inj in Heq |].

Lemma hash_in_cache s a :
  length (dde_linux26_page_cache s) = Z.to_nat DDE_PAGE_CACHE_SIZE ->
  (Z.to_nat (VIRT_TO_PAGEHASH a) < length (dde_linux26_page_cache s))%nat.
Proof. pose proof (VIRT_TO_PAGEHASH_range a). lia. Qed.

(** The scan of [dde_linux26_page_lookup] returns at the first exact match. *)
Lemma lookup_first_match va s :
  dde_linux26_page_lookup va s =
  first_match (page_virtual s) (Z.land va PAGE_MASK) (bucket s (VIRT_TO_PAGEHASH va)).
Proof.
  unfold dde_linux26_page_lookup. generalize 0%nat.
  induction (bucket s (VIRT_TO_PAGEHASH va)) as [| e tl IH]; intros hn; simpl.
  - reflexivity.
  - destruct (page_virtual s (page e) =? Z.land va PAGE_MASK); [reflexivity | apply IH].
Qed.

(** The scan of [dde_linux26_page_cache_remove] sees the head of the chain
    and nothing else. *)
Lemma remove_unfold p s :
  dde_linux26_page_cache_remove p s =
  Done tt
    match bucket s (VIRT_TO_PAGEHASH (page_virtual s p)) with
    | e :: tl =>
        if page_virtual s (page e) =? Z.land (page_virtual s p) PAGE_MASK
        then set_bucket (VIRT_TO_PAGEHASH (page_virtual s p)) tl s
        else s
    | [] => s
    end.
Proof.
  unfold dde_linux26_page_cache_remove.
  destruct (bucket s (VIRT_TO_PAGEHASH (page_virtual s p))) as [| e tl]; simpl.
  - reflexivity.
  - destruct (page_virtual s (page e) =? Z.land (page_virtual s p) PAGE_MASK);
      reflexivity.
Qed.

Lemma add_unfold p s :
  dde_linux26_page_cache_add p s =
  Done tt
    (set_bucket (VIRT_TO_PAGEHASH (page_virtual s p))
       ({| page := p |} :: bucket s (VIRT_TO_PAGEHASH (page_virtual s p)))
       (set_kmalloc_next (kmalloc_next s + 1) s)).
Proof. reflexivity. Qed.

(** The scan reads [virtual] of the pages in the chain only. *)
Lemma first_match_ext virtual virtual' key h :
  (forall e, In e h -> virtual' (page e) = virtual (page e)) ->
  first_match virtual' key h = first_match virtual key h.
Proof.
  induction h as [| e tl IH]; intros Hext; simpl; [reflexivity |].
  rewrite (Hext e) by (left; reflexivity).
  rewrite IH by (intros e' He'; apply Hext; right; assumption).
  reflexivity.
Qed.

(** What removal does to a lookup: nothing, unless the lookup is for the
    page boundary that is removed. *)
Lemma remove_lookup_other p s s' va :
  dde_linux26_page_cache_remove p s = Done tt s' ->
  Z.land va PAGE_MASK <> Z.land (page_virtual s p) PAGE_MASK ->
  dde_linux26_page_lookup va s' = dde_linux26_page_lookup va s.
Proof.
  rewrite remove_unfold. intros [= <-] Hne.
  destruct (bucket s (VIRT_TO_PAGEHASH (page_virtual s p))) as [| e tl] eqn:Hb;
    [reflexivity |].
  destruct (Z.eqb_spec (page_virtual s (page e)) (Z.land (page_virtual s p) PAGE_MASK))
    as [He | _]; [| reflexivity].
  rewrite !lookup_first_match. simpl.
  same_chain (page_virtual s p) va Heq Hneq.
  - rewrite <- Heq.
    rewrite bucket_set_bucket_eq by (eapply bucket_nonempty_lt; eassumption).
    rewrite Hb. simpl.
    destruct (Z.eqb_spec (page_virtual s (page e)) (Z.land va PAGE_MASK)); [| reflexivity].
    congruence.
  - rewrite bucket_set_bucket_ne by assumption. reflexivity.
Qed.

Lemma first_match_head virtual key h :
  first_match virtual key h =
  head (map page (List.filter (fun e => virtual (page e) =? key) h)).
Proof.
  induction h as [| e tl IH]; simpl; [reflexivity |].
  destruct (virtual (page e) =? key); [reflexivity | apply IH].
Qed.

Lemma lookup_entries_at a s :
  Z.land a PAGE_MASK = a ->
  dde_linux26_page_lookup a s = head (entries_at a s).
Proof.
  intros Ha. rewrite lookup_first_match, Ha. apply first_match_head.
Qed.

Lemma add_entries_at p s s' a :
  length (dde_linux26_page_cache s) = Z.to_nat DDE_PAGE_CACHE_SIZE ->
  dde_linux26_page_cache_add p s = Done tt s' ->
  entries_at a s' =
  (if page_virtual s p =? a then [p] else []) ++ entries_at a s.
Proof.
  intros Hlen. rewrite add_unfold. intros [= <-]. unfold entries_at. simpl.
  same_chain (page_virtual s p) a Heq Hneq.
  - rewrite <- Heq.
    rewrite bucket_set_bucket_eq by (apply hash_in_cache; assumption).
    simpl. destruct (page_virtual s p =? a); reflexivity.
  - rewrite bucket_set_bucket_ne by assumption.
    destruct (Z.eqb_spec (page_virtual s p) a) as [Hpa | _];
      [rewrite Hpa in Hneq; contradiction | reflexivity].
Qed.

Lemma remove_entries_at p s s' a :
  dde_linux26_page_cache_remove p s = Done tt s' ->
  (entries_at a s' = entries_at a s \/
   Z.land (page_virtual s p) PAGE_MASK = a /\ entries_at a s' = tail (entries_at a s)).
Proof.
  rewrite remove_unfold. intros [= <-].
  destruct (bucket s (VIRT_TO_PAGEHASH (page_virtual s p))) as [| e tl] eqn:Hb;
    [left; reflexivity |].
  destruct (Z.eqb_spec (page_virtual s (page e)) (Z.land (page_virtual s p) PAGE_MASK))
    as [He | _]; [| left; reflexivity].
  unfold entries_at. simpl.
  same_chain (page_virtual s p) a Heq Hneq.
  - rewrite <- Heq.
    rewrite bucket_set_bucket_eq by (eapply bucket_nonempty_lt; eassumption).
    rewrite Hb. simpl.
    destruct (Z.eqb_spec (page_virtual s (page e)) a) as [Hea | _].
    + right. split; [congruence | reflexivity].
    + left. reflexivity.
  - rewrite bucket_set_bucket_ne by assumption. left. reflexivity.
Qed.

Lemma cache_step_frame o s s' :
  cache_step o s = Done tt s' ->
  page_virtual s' = page_virtual s /\
  length (dde_linux26_page_cache s') = length (dde_linux26_page_cache s).
Proof.
  destruct o as [p | p]; simpl.
  - rewrite add_unfold. intros [= <-]. simpl. rewrite length_insert. auto.
  - rewrite remove_unfold. intros [= <-].
    destruct (bucket s _) as [| e tl]; [auto |].
    destruct (_ =? _); [| auto]. simpl. rewrite length_insert. auto.
Qed.

Lemma cache_step_done o s : exists s', cache_step o s = Done tt s'.
Proof.
  destruct o as [p | p]; simpl.
  - rewrite add_unfold. eauto.
  - rewrite remove_unfold. eauto.
Qed.

Lemma cache_run_entries_at a ops : forall s,
  length (dde_linux26_page_cache s) = Z.to_nat DDE_PAGE_CACHE_SIZE ->
  exists s',
    cache_run ops s = Done tt s' /\
    sublist (entries_at a s')
            (rev (added_at (page_virtual s) a ops) ++ entries_at a s) /\
    (removes_at (page_virtual s) a ops = false ->
     entries_at a s' = rev (added_at (page_virtual s) a ops) ++ entries_at a s).
Proof.
  induction ops as [| o ops IH]; intros s Hlen.
  - exists s. simpl. split; [reflexivity |]. split; [reflexivity | auto].
  - destruct (cache_step_done o s) as [s1 Hs1].
    destruct (cache_step_frame _ _ _ Hs1) as [Hv Hl].
    destruct (IH s1) as (s' & Hrun & Hsub & Heq); [congruence |].
    exists s'. rewrite Hv in *.
    split; [simpl; unfold bind; rewrite Hs1; exact Hrun |].
    destruct o as [p | p]; simpl in Hs1 |- *.
    + pose proof (add_entries_at _ _ _ a Hlen Hs1) as Ha.
      rewrite Ha in Hsub, Heq.
      destruct (page_virtual s p =? a); simpl in *.
      * rewrite <- app_assoc. simpl. auto.
      * auto.
    + destruct (remove_entries_at _ _ _ a Hs1) as [Hr | [Hk Hr]];
        rewrite Hr in Hsub, Heq.
      * split; [assumption |]. intros Hno. apply Heq.
        apply orb_false_iff in Hno as [_ Hno]. assumption.
      * split.
        -- etransitivity; [exact Hsub |]. apply sublist_app; [reflexivity |].
           destruct (entries_at a s); simpl; [reflexivity |].
           apply sublist_cons. reflexivity.
        -- intros Hno. apply orb_false_iff in Hno as [Hno _].
           apply Z.eqb_neq in Hno. contradiction.
Qed.

(** C10: [dde_linux26_page_cache_add] puts the new entry at the head of its
    chain, and [dde_linux26_page_lookup] of a page boundary [a] returns the
    first page of the chain that lies at [a].  So, after any run [ops] of
    insertions and removals on a cache that may already hold pages at [a],
    the pages at [a] stand in their chain newest first (a subsequence of
    those added by [ops], last added first, followed by the older ones), and
    the lookup returns the first of them; when [ops] removes nothing at
    [a], that is the page [ops] added last at [a]. *)
Theorem lookup_returns_most_recently_added :
  forall (s : world) (a : Z) (ops : list cache_op),
    length (dde_linux26_page_cache s) = Z.to_nat DDE_PAGE_CACHE_SIZE ->
    Z.land a PAGE_MASK = a ->
    (forall p, exists s1,
        dde_linux26_page_cache_add p s = Done tt s1 /\
        bucket s1 (VIRT_TO_PAGEHASH (page_virtual s p)) =
        {| page := p |} :: bucket s (VIRT_TO_PAGEHASH (page_virtual s p))) /\
    exists s',
      cache_run ops s = Done tt s' /\
      dde_linux26_page_lookup a s' = head (entries_at a s') /\
      sublist (entries_at a s')
              (rev (added_at (page_virtual s) a ops) ++ entries_at a s) /\
      (removes_at (page_virtual s) a ops = false ->
       dde_linux26_page_lookup a s' =
       head (rev (added_at (page_virtual s) a ops) ++ entries_at a s)).
Proof.
  intros s a ops Hlen Ha. split.
  - intros p. eexists. split; [apply add_unfold |].
    apply bucket_set_bucket_eq. simpl. apply hash_in_cache. assumption.
  - destruct (cache_run_entries_at a ops s Hlen) as (s' & Hrun & Hsub & Heq).
    exists s'. split; [assumption |].
    split; [apply lookup_entries_at; assumption |].
    split; [assumption |].
    intros Hno. rewrite lookup_entries_at by assumption. rewrite Heq by assumption.
    reflexivity.
Qed.

(** C9: removing a page whose page boundary has no entry in the cache
    returns and leaves the world as it was; so after a page whose page
    boundary had no entry is inserted and removed, a second removal changes
    nothing (and the table is as before the insertion when the page lies on
    its page boundary).  In every case the removal
    returns, takes at most the one entry at the head of the chain that lies
    at the page boundary, and every lookup for another page boundary gives
    what it gave before. *)
Theorem remove_of_absent_entry_is_noop :
  (forall (s : world) (p : Z),
      (forall i e, In e (bucket s i) ->
                   page_virtual s (page e) <> Z.land (page_virtual s p) PAGE_MASK) ->
      dde_linux26_page_cache_remove p s = Done tt s) /\
  (forall (s : world) (p : Z),
      length (dde_linux26_page_cache s) = Z.to_nat DDE_PAGE_CACHE_SIZE ->
      (forall i e, In e (bucket s i) ->
                   page_virtual s (page e) <> Z.land (page_virtual s p) PAGE_MASK) ->
      exists s1 s2,
        dde_linux26_page_cache_add p s = Done tt s1 /\
        dde_linux26_page_cache_remove p s1 = Done tt s2 /\
        dde_linux26_page_cache_remove p s2 = Done tt s2 /\
        (Z.land (page_virtual s p) PAGE_MASK = page_virtual s p ->
         dde_linux26_page_cache s2 = dde_linux26_page_cache s)) /\
  (forall (s : world) (p : Z),
      exists s',
        dde_linux26_page_cache_remove p s = Done tt s' /\
        (forall va,
            Z.land va PAGE_MASK <> Z.land (page_virtual s p) PAGE_MASK ->
            dde_linux26_page_lookup va s' = dde_linux26_page_lookup va s) /\
        (s' = s \/
         exists e tl,
           bucket s (VIRT_TO_PAGEHASH (page_virtual s p)) = e :: tl /\
           page_virtual s (page e) = Z.land (page_virtual s p) PAGE_MASK /\
           s' = set_bucket (VIRT_TO_PAGEHASH (page_virtual s p)) tl s)).
Proof.
  assert (Habsent : forall s p,
             (forall i e, In e (bucket s i) ->
                page_virtual s (page e) <> Z.land (page_virtual s p) PAGE_MASK) ->
             dde_linux26_page_cache_remove p s = Done tt s).
  { intros s p Habs. rewrite remove_unfold.
    destruct (bucket s (VIRT_TO_PAGEHASH (page_virtual s p))) as [| e tl] eqn:Hb;
      [reflexivity |].
    destruct (Z.eqb_spec (page_virtual s (page e)) (Z.land (page_virtual s p) PAGE_MASK))
      as [He | _]; [| reflexivity].
    exfalso. apply (Habs (VIRT_TO_PAGEHASH (page_virtual s p)) e); [| assumption].
    rewrite Hb. left. reflexivity. }
  split; [exact Habsent |]. split.
  - intros s p Hlen Habs.
    pose proof (hash_in_cache s (page_virtual s p) Hlen) as Hin.
    set (h := VIRT_TO_PAGEHASH (page_virtual s p)) in *.
    set (s1 := set_bucket h ({| page := p |} :: bucket s h)
                 (set_kmalloc_next (kmalloc_next s + 1) s)).
    assert (Hb1 : bucket s1 h = {| page := p |} :: bucket s h)
      by (apply bucket_set_bucket_eq; assumption).
    assert (Hv1 : page_virtual s1 = page_virtual s) by reflexivity.
    destruct (Z.eq_dec (Z.land (page_virtual s p) PAGE_MASK) (page_virtual s p))
      as [Hal | Hnal].
    + (* the page lies on its page boundary: the first removal takes it *)
      set (s2 := set_bucket h (bucket s h) s1).
      assert (Hc2 : dde_linux26_page_cache s2 = dde_linux26_page_cache s).
      { unfold s2, s1, set_bucket. simpl. rewrite list_insert_insert_eq.
        apply list_insert_id. unfold bucket.
        destruct (lookup_lt_is_Some_2 _ _ Hin) as [b Hbk]. rewrite Hbk. reflexivity. }
      assert (Hv2 : page_virtual s2 = page_virtual s) by reflexivity.
      exists s1, s2. split; [apply add_unfold |].
      split; [| split; [| intros _; exact Hc2]].
      * rewrite remove_unfold, Hv1. fold h. rewrite Hb1. simpl.
        rewrite Hal, Z.eqb_refl. reflexivity.
      * apply Habsent. intros i e He. rewrite Hv2.
        apply (Habs i). unfold bucket in *. rewrite <- Hc2. assumption.
    + (* it does not: no removal finds it *)
      assert (Hrem : dde_linux26_page_cache_remove p s1 = Done tt s1).
      { rewrite remove_unfold, Hv1. fold h. rewrite Hb1. simpl.
        destruct (Z.eqb_spec (page_virtual s p) (Z.land (page_virtual s p) PAGE_MASK));
          [congruence | reflexivity]. }
      exists s1, s1. split; [apply add_unfold |].
      split; [exact Hrem |]. split; [exact Hrem |]. intros Hal. contradiction.
  - intros s p. rewrite remove_unfold. eexists. split; [reflexivity |]. split.
    + intros va Hne. eapply remove_lookup_other; [apply remove_unfold | assumption].
    + destruct (bucket s (VIRT_TO_PAGEHASH (page_virtual s p))) as [| e tl];
        [left; reflexivity |].
      destruct (Z.eqb_spec (page_virtual s (page e)) (Z.land (page_virtual s p) PAGE_MASK))
        as [He | _]; [| left; reflexivity].
      right. exists e, tl. auto.
Qed.

(** ** The facade, unfolded *)

Lemma get_free_pages_unfold gfp_mask order s :
  gfp_mask <> GFP_DMA -> 0 <= order < BITS_PER_LONG ->
  __get_free_pages gfp_mask order s =
  dde_kit_large_malloc (ulong (Z.shiftl PAGE_SIZE order)) s.
Proof.
  intros Hg Ho. unfold __get_free_pages, bind, dde_kit_assert, shl.
  apply Z.eqb_neq in Hg. rewrite Hg. simpl.
  replace (0 <=? order) with true by (symmetry; apply Z.leb_le; lia).
  replace (order <? BITS_PER_LONG) with true by (symmetry; apply Z.ltb_lt; lia).
  reflexivity.
Qed.

Lemma get_free_pages_dma order s :
  __get_free_pages GFP_DMA order s = AssertionFailed s.
Proof.
  unfold __get_free_pages, bind, dde_kit_assert. rewrite Z.eqb_refl. reflexivity.
Qed.

Lemma get_free_pages_assertion gfp_mask order s s' :
  __get_free_pages gfp_mask order s = AssertionFailed s' -> gfp_mask = GFP_DMA.
Proof.
  unfold __get_free_pages, bind, dde_kit_assert, shl.
  destruct (Z.eqb_spec gfp_mask GFP_DMA) as [Hg | _]; [auto |]. simpl.
  destruct ((0 <=? order) && (order <? BITS_PER_LONG)); discriminate.
Qed.

Lemma alloc_pages_unfold gfp_mask order zonelist s :
  gfp_mask <> GFP_DMA -> 0 <= order < BITS_PER_LONG ->
  __alloc_pages gfp_mask order zonelist s = Done (kmalloc_next s) (allocated order s).
Proof.
  intros Hg Ho. unfold __alloc_pages, bind at 1. simpl.
  unfold bind at 1. rewrite get_free_pages_unfold by assumption. simpl.
  unfold bind, modify, dde_linux26_page_cache_add, set_bucket, bucket, ret. simpl.
  rewrite Z.eqb_refl. reflexivity.
Qed.

Lemma alloc_pages_dma order zonelist s :
  __alloc_pages GFP_DMA order zonelist s =
  AssertionFailed (set_kmalloc_next (kmalloc_next s + 1) s).
Proof.
  unfold __alloc_pages, bind at 1. simpl.
  unfold bind at 1. rewrite get_free_pages_dma. reflexivity.
Qed.

Lemma alloc_pages_assertion gfp_mask order zonelist s s' :
  __alloc_pages gfp_mask order zonelist s = AssertionFailed s' -> gfp_mask = GFP_DMA.
Proof.
  unfold __alloc_pages, bind at 1. simpl. unfold bind at 1.
  destruct (__get_free_pages gfp_mask order _) eqn:Hg; try discriminate.
  intros _. eapply get_free_pages_assertion. eassumption.
Qed.

Lemma free_pages_unfold page order s :
  __free_pages page order s =
  dde_linux26_page_cache_remove page
    (set_provider (large_malloc_replies s)
                  (LargeFree (page_virtual s page) :: provider_calls s) s).
Proof. reflexivity. Qed.

Lemma memset_bytes_spec n : forall m p c a,
  memset_bytes m p c n a =
  if (p <=? a) && (a <? p + Z.of_nat n) then c else m a.
Proof.
  induction n as [| n IH]; intros m p c a.
  - change (Z.of_nat 0) with 0. change (memset_bytes m p c 0 a) with (m a).
    destruct ((p <=? a) && (a <? p + 0)) eqn:E; [| reflexivity].
    apply andb_true_iff in E as [E1 E2].
    apply Z.leb_le in E1. apply Z.ltb_lt in E2. lia.
  - change (memset_bytes m p c (S n) a)
      with (memset_bytes (fun a => if a =? p then c else m a) (p + 1) c n a).
    rewrite IH.
    destruct (Z.leb_spec (p + 1) a), (Z.ltb_spec a (p + 1 + Z.of_nat n)),
             (Z.leb_spec p a), (Z.ltb_spec a (p + Z.of_nat (S n))),
             (Z.eqb_spec a p); simpl; auto; lia.
Qed.

Lemma ulong_PAGE_SIZE : ulong PAGE_SIZE = PAGE_SIZE.
Proof.
  apply ulong_small. rewrite PAGE_SIZE_eq.
  pose proof word_ge_page. rewrite PAGE_SIZE_eq in *.
  assert (2 ^ (PAGE_SHIFT + 1) <= 2 ^ BITS_PER_LONG)
    by (apply Z.pow_le_mono_r; lia).
  change (2 ^ (PAGE_SHIFT + 1)) with 8192 in *. lia.
Qed.

Lemma request_size_exact order :
  0 <= order -> order + PAGE_SHIFT < BITS_PER_LONG ->
  ulong (Z.shiftl PAGE_SIZE order) = PAGE_SIZE * 2 ^ order.
Proof.
  intros Ho Hf. rewrite Z.shiftl_mul_pow2 by assumption.
  apply ulong_small. unfold PAGE_SIZE. rewrite Z.shiftl_1_l.
  rewrite <- Z.pow_add_r by (unfold PAGE_SHIFT; lia).
  split; [apply Z.pow_nonneg; lia |].
  apply Z.pow_lt_mono_r; unfold PAGE_SHIFT in *; lia.
Qed.

(** ** What the two slips do in general *)

Lemma concat_insert_cons (c : list (list page_cache_entry)) : forall i e b,
  c !! i = Some b ->
  length (concat (<[i := e :: b]> c)) = S (length (concat c)).
Proof.
  induction c as [| b0 c IH]; intros i e b Hb; [discriminate |].
  destruct i as [| i]; simpl in *.
  - injection Hb as ->. reflexivity.
  - rewrite !length_app, (IH _ _ _ Hb). lia.
Qed.

(** [__alloc_pages] when the provider denies the request, whatever the order
    and the memory class that passes the assertion: a descriptor is
    returned, with [virtual] [NULL], and the cache holds one entry more,
    which a lookup of [NULL] finds. *)
Lemma alloc_pages_on_denial gfp_mask order zonelist s :
  gfp_mask <> GFP_DMA -> 0 <= order < BITS_PER_LONG ->
  length (dde_linux26_page_cache s) = Z.to_nat DDE_PAGE_CACHE_SIZE ->
  hd NULL (large_malloc_replies s) = NULL ->
  exists s',
    __alloc_pages gfp_mask order zonelist s = Done (kmalloc_next s) s' /\
    page_virtual s' (kmalloc_next s) = NULL /\
    cache_entries s' = S (cache_entries s) /\
    dde_linux26_page_lookup NULL s' = Some (kmalloc_next s).
Proof.
  intros Hg Ho Hlen Hdeny. exists (allocated order s).
  split; [apply alloc_pages_unfold; assumption |].
  assert (Hv : page_virtual (allocated order s) (kmalloc_next s) = NULL).
  { simpl. rewrite Z.eqb_refl. assumption. }
  split; [exact Hv |]. split.
  - unfold cache_entries, allocated. cbn [dde_linux26_page_cache].
    apply concat_insert_cons. unfold bucket.
    destruct (lookup_lt_is_Some_2 (dde_linux26_page_cache s)
                (Z.to_nat (VIRT_TO_PAGEHASH (hd NULL (large_malloc_replies s)))))
      as [b Hb]; [apply hash_in_cache; assumption |].
    rewrite Hb. reflexivity.
  - rewrite lookup_first_match. unfold NULL at 1 2. rewrite Z.land_0_l.
    unfold bucket, allocated. cbn [dde_linux26_page_cache page_virtual].
    rewrite Hdeny. unfold NULL at 1.
    rewrite list_lookup_insert_eq by (apply hash_in_cache; assumption).
    simpl. rewrite Z.eqb_refl. reflexivity.
Qed.

(** [__free_pages] of a descriptor that is not at the head of its chain:
    the block goes back to the provider and the cache stays as it is. *)
Lemma free_pages_behind_head pg order s e tl :
  bucket s (VIRT_TO_PAGEHASH (page_virtual s pg)) = e :: tl ->
  page_virtual s (page e) <> Z.land (page_virtual s pg) PAGE_MASK ->
  exists s',
    __free_pages pg order s = Done tt s' /\
    provider_calls s' = LargeFree (page_virtual s pg) :: provider_calls s /\
    dde_linux26_page_cache s' = dde_linux26_page_cache s /\
    forall va, dde_linux26_page_lookup va s' = dde_linux26_page_lookup va s.
Proof.
  intros Hb Hne. rewrite free_pages_unfold, remove_unfold.
  set (sc := set_provider _ _ s).
  change (page_virtual sc) with (page_virtual s).
  change (bucket sc) with (bucket s). rewrite Hb.
  destruct (Z.eqb_spec (page_virtual s (page e)) (Z.land (page_virtual s pg) PAGE_MASK));
    [contradiction |].
  exists sc. repeat split; reflexivity.
Qed.

(** C5: at every order for which the request size is defined,
    [__get_free_pages], and [__alloc_pages] through it, stop in the
    assertion exactly when the memory class asked for is [GFP_DMA].  Then
    the provider is not called and nothing is returned.  For every other
    class the assertion holds and the request goes to the provider, whose
    answer is what [__get_free_pages] returns. *)
Theorem get_free_pages_asserts_memory_class :
  forall (gfp_mask order zonelist : Z) (s : world),
    0 <= order < BITS_PER_LONG ->
    ((exists s', __get_free_pages gfp_mask order s = AssertionFailed s')
     <-> gfp_mask = GFP_DMA) /\
    ((exists s', __alloc_pages gfp_mask order zonelist s = AssertionFailed s')
     <-> gfp_mask = GFP_DMA) /\
    (gfp_mask = GFP_DMA ->
     __get_free_pages gfp_mask order s = AssertionFailed s /\
     exists s',
       __alloc_pages gfp_mask order zonelist s = AssertionFailed s' /\
       provider_calls s' = provider_calls s /\
       large_malloc_replies s' = large_malloc_replies s /\
       dde_linux26_page_cache s' = dde_linux26_page_cache s) /\
    (gfp_mask <> GFP_DMA ->
     __get_free_pages gfp_mask order s =
       dde_kit_large_malloc (ulong (Z.shiftl PAGE_SIZE order)) s /\
     exists s',
       __get_free_pages gfp_mask order s = Done (hd NULL (large_malloc_replies s)) s' /\
       provider_calls s' =
         LargeMalloc (ulong (Z.shiftl PAGE_SIZE order)) (hd NULL (large_malloc_replies s))
         :: provider_calls s).
Proof.
  intros gfp_mask order zonelist s Ho.
  split; [| split; [| split]].
  - split.
    + intros [s' Hs']. eapply get_free_pages_assertion. eassumption.
    + intros ->. eexists. apply get_free_pages_dma.
  - split.
    + intros [s' Hs']. eapply alloc_pages_assertion. eassumption.
    + intros ->. eexists. apply alloc_pages_dma.
  - intros ->. split; [apply get_free_pages_dma |].
    eexists. split; [apply alloc_pages_dma |]. auto.
  - intros Hg. split; [apply get_free_pages_unfold; assumption |].
    eexists. split; [rewrite get_free_pages_unfold by assumption; reflexivity |].
    reflexivity.
Qed.

(** C8: for every order (below the width of the word, where the shift is
    defined) [__get_free_pages] and [__alloc_pages] make one request to the
    provider, of [PAGE_SIZE << order] bytes; while that does not leave the
    word it is [PAGE_SIZE * 2 ^ order]: 4096 bytes at order 0 and 32768 bytes
    at order 3. *)
Theorem alloc_requests_page_size_shl_order :
  forall (gfp_mask order zonelist : Z) (s : world),
    gfp_mask <> GFP_DMA ->
    0 <= order < BITS_PER_LONG ->
    (exists s1,
        __get_free_pages gfp_mask order s = Done (hd NULL (large_malloc_replies s)) s1 /\
        provider_calls s1 =
          LargeMalloc (ulong (Z.shiftl PAGE_SIZE order)) (hd NULL (large_malloc_replies s))
          :: provider_calls s) /\
    (exists p s2,
        __alloc_pages gfp_mask order zonelist s = Done p s2 /\
        provider_calls s2 =
          LargeMalloc (ulong (Z.shiftl PAGE_SIZE order)) (hd NULL (large_malloc_replies s))
          :: provider_calls s) /\
    (order + PAGE_SHIFT < BITS_PER_LONG ->
     ulong (Z.shiftl PAGE_SIZE order) = PAGE_SIZE * 2 ^ order) /\
    (order = 0 -> ulong (Z.shiftl PAGE_SIZE order) = 4096) /\
    (order = 3 -> 3 + PAGE_SHIFT < BITS_PER_LONG ->
     ulong (Z.shiftl PAGE_SIZE order) = 32768).
Proof.
  intros gfp_mask order zonelist s Hg Ho.
  split; [| split; [| split; [| split]]].
  - eexists. split; [rewrite get_free_pages_unfold by assumption; reflexivity |].
    reflexivity.
  - eexists _, _. split; [apply alloc_pages_unfold; assumption |]. reflexivity.
  - intros Hf. apply request_size_exact; lia.
  - intros ->. rewrite request_size_exact by lia. reflexivity.
  - intros -> Hf. rewrite request_size_exact by lia. reflexivity.
Qed.

(** C7: [get_zeroed_page] makes one request to the provider, through
    [__get_free_pages] at order 0, of one page.  When the provider grants
    it, the address granted is returned and each of the [PAGE_SIZE] bytes
    from it on is zero, the bytes elsewhere being as before; when the
    provider denies it, [NULL] is returned as it came and the world is as
    [__get_free_pages] left it: no byte of memory is written. *)
Theorem get_zeroed_page_zeroes_one_page :
  forall (gfp_mask : Z) (s : world),
    gfp_mask <> GFP_DMA ->
    exists s1 s',
      __get_free_pages gfp_mask 0 s = Done (hd NULL (large_malloc_replies s)) s1 /\
      get_zeroed_page gfp_mask s = Done (hd NULL (large_malloc_replies s)) s' /\
      provider_calls s' =
        LargeMalloc PAGE_SIZE (hd NULL (large_malloc_replies s)) :: provider_calls s /\
      (hd NULL (large_malloc_replies s) <> NULL ->
       (forall i, 0 <= i < PAGE_SIZE ->
                  memory s' (hd NULL (large_malloc_replies s) + i) = 0) /\
       (forall a, ~ (hd NULL (large_malloc_replies s) <= a
                     < hd NULL (large_malloc_replies s) + PAGE_SIZE) ->
                  memory s' a = memory s a)) /\
      (hd NULL (large_malloc_replies s) = NULL ->
       s' = s1 /\ memory s' = memory s).
Proof.
  intros gfp_mask s Hg.
  assert (Ho : 0 <= 0 < BITS_PER_LONG) by (unfold PAGE_SHIFT in word_fits; lia).
  pose proof (get_free_pages_unfold gfp_mask 0 s Hg Ho) as Hgfp.
  rewrite Z.shiftl_0_r, ulong_PAGE_SIZE in Hgfp.
  set (r := hd NULL (large_malloc_replies s)) in *.
  unfold get_zeroed_page, bind. rewrite Hgfp. simpl. fold r.
  destruct (Z.eqb_spec r 0) as [Hr | Hr]; simpl.
  - eexists _, _. split; [reflexivity |]. split; [reflexivity |].
    split; [reflexivity |]. split; [intros Hn; contradiction |].
    intros _. split; reflexivity.
  - eexists _, _. split; [reflexivity |]. split; [reflexivity |].
    split; [reflexivity |]. split; [| intros Hn; contradiction].
    intros _. simpl. split.
    + intros i Hi. rewrite memset_bytes_spec.
      rewrite Z2Nat.id by (rewrite PAGE_SIZE_eq; lia).
      destruct (Z.leb_spec r (r + i)), (Z.ltb_spec (r + i) (r + PAGE_SIZE));
        simpl; auto; lia.
    + intros a Ha. rewrite memset_bytes_spec.
      rewrite Z2Nat.id by (rewrite PAGE_SIZE_eq; lia).
      destruct (Z.leb_spec r a), (Z.ltb_spec a (r + PAGE_SIZE)); simpl; auto; lia.
Qed.

(** ** Clients of the facade keep [client_inv] *)

Lemma alloc_pages_done gfp_mask order zonelist s p s' :
  __alloc_pages gfp_mask order zonelist s = Done p s' ->
  p = kmalloc_next s /\ s' = allocated order s.
Proof.
  destruct (Z.eq_dec gfp_mask GFP_DMA) as [-> | Hg].
  { rewrite alloc_pages_dma. discriminate. }
  destruct (Z_le_dec 0 order) as [H0 |]; [destruct (Z_lt_dec order BITS_PER_LONG) as [H1 |] |].
  - rewrite alloc_pages_unfold by (auto; lia). intros [= <- <-]. auto.
  - unfold __alloc_pages, bind, __get_free_pages, dde_kit_assert, shl. simpl.
    apply Z.eqb_neq in Hg. rewrite Hg. simpl.
    replace (order <? BITS_PER_LONG) with false by (symmetry; apply Z.ltb_ge; lia).
    rewrite andb_false_r. discriminate.
  - unfold __alloc_pages, bind, __get_free_pages, dde_kit_assert, shl. simpl.
    apply Z.eqb_neq in Hg. rewrite Hg. simpl.
    replace (0 <=? order) with false by (symmetry; apply Z.leb_gt; lia).
    discriminate.
Qed.

Lemma bucket_allocated order s i :
  length (dde_linux26_page_cache s) = Z.to_nat DDE_PAGE_CACHE_SIZE ->
  bucket (allocated order s) i =
  if Nat.eq_dec (Z.to_nat (VIRT_TO_PAGEHASH (hd NULL (large_malloc_replies s)))) (Z.to_nat i)
  then {| page := kmalloc_next s |} :: bucket s i
  else bucket s i.
Proof.
  intros Hlen. unfold bucket, allocated. simpl.
  destruct (Nat.eq_dec _ _) as [Heq | Hne].
  - rewrite <- Heq. rewrite list_lookup_insert_eq by (apply hash_in_cache; assumption).
    reflexivity.
  - rewrite list_lookup_insert_ne by assumption. reflexivity.
Qed.

Lemma grant_ok_inv s live :
  grant_ok s live = true ->
  hd NULL (large_malloc_replies s) = NULL \/
  (Z.land (hd NULL (large_malloc_replies s)) PAGE_MASK = hd NULL (large_malloc_replies s) /\
   forall d, In d live -> page_virtual s d <> hd NULL (large_malloc_replies s)).
Proof.
  unfold grant_ok. intros Hg. apply orb_true_iff in Hg as [Hg | Hg].
  - left. apply Z.eqb_eq. assumption.
  - right. apply andb_true_iff in Hg as [Ha Hf]. split; [apply Z.eqb_eq; assumption |].
    intros d Hd. rewrite forallb_forall in Hf. specialize (Hf d Hd).
    apply negb_true_iff, Z.eqb_neq in Hf. assumption.
Qed.

Lemma alloc_keeps_inv order s live :
  grant_ok s live = true ->
  client_inv (s, live) ->
  client_inv (allocated order s, kmalloc_next s :: live).
Proof.
  intros Hgrant (Hlen & Hent & Hlive & Hnd & Hfirst).
  set (p := kmalloc_next s) in *. set (r := hd NULL (large_malloc_replies s)) in *.
  assert (Hv : forall q, q < p -> page_virtual (allocated order s) q = page_virtual s q).
  { intros q Hq. simpl. fold p. destruct (Z.eqb_spec q p); [lia | reflexivity]. }
  assert (Hvp : page_virtual (allocated order s) p = r).
  { simpl. fold p. rewrite Z.eqb_refl. reflexivity. }
  assert (Hnext : kmalloc_next (allocated order s) = p + 1 + 1) by reflexivity.
  unfold client_inv. split; [| split; [| split; [| split]]].
  - simpl. rewrite length_insert. assumption.
  - intros i e He. rewrite bucket_allocated in He by assumption. rewrite Hnext.
    destruct (Nat.eq_dec _ _); [destruct He as [<- | He] |].
    + simpl. fold p. lia.
    + specialize (Hent i e He). lia.
    + specialize (Hent i e He). lia.
  - intros d [<- | Hd]; rewrite Hnext; [lia |]. specialize (Hlive d Hd). lia.
  - apply List.NoDup_cons; [| assumption]. intros Hin. specialize (Hlive p Hin). lia.
  - intros d [<- | Hd] Hnz.
    + rewrite Hvp in *.
      destruct (grant_ok_inv _ _ Hgrant) as [Hz | [Ha _]]; [contradiction |].
      split; [exact Ha |].
      rewrite bucket_allocated by assumption. fold r.
      destruct (Nat.eq_dec _ _); [| contradiction].
      cbn [first_match page]. fold p. rewrite Hvp, Z.eqb_refl. reflexivity.
    + assert (Hdp : d < p) by (apply Hlive; assumption).
      rewrite Hv in * by assumption.
      destruct (Hfirst d Hd Hnz) as [Hal Hfm]. split; [exact Hal |].
      assert (Hext : first_match (page_virtual (allocated order s)) (page_virtual s d)
                       (bucket s (VIRT_TO_PAGEHASH (page_virtual s d))) = Some d).
      { rewrite <- Hfm. apply first_match_ext. intros e He. apply Hv.
        eapply Hent. eassumption. }
      rewrite bucket_allocated by assumption. fold r.
      destruct (Nat.eq_dec _ _); [| exact Hext].
      cbn [first_match page]. fold p. rewrite Hvp.
      destruct (Z.eqb_spec r (page_virtual s d)) as [Hr | _]; [| exact Hext].
      exfalso. destruct (grant_ok_inv _ _ Hgrant) as [Hz | [_ Hne]].
      * fold r in Hz. congruence.
      * apply (Hne d Hd). fold r. congruence.
Qed.

Lemma free_keeps_inv pg order s live s' :
  In pg live ->
  __free_pages pg order s = Done tt s' ->
  client_inv (s, live) ->
  client_inv (s', List.filter (fun d => negb (d =? pg)) live).
Proof.
  intros Hin Hfree (Hlen & Hent & Hlive & Hnd & Hfirst).
  rewrite free_pages_unfold, remove_unfold in Hfree.
  set (sc := set_provider (large_malloc_replies s)
               (LargeFree (page_virtual s pg) :: provider_calls s) s) in *.
  change (page_virtual sc) with (page_virtual s) in Hfree.
  change (bucket sc) with (bucket s) in Hfree.
  assert (Hlive' : forall d, In d (List.filter (fun d => negb (d =? pg)) live) ->
                             In d live /\ d <> pg).
  { intros d Hd. apply filter_In in Hd as [Hd Hne].
    apply negb_true_iff, Z.eqb_neq in Hne. auto. }
  assert (Hsame : client_inv (sc, List.filter (fun d => negb (d =? pg)) live)).
  { unfold client_inv. split; [| split; [| split; [| split]]].
    - assumption.
    - exact Hent.
    - intros d Hd. apply Hlive. apply Hlive'. assumption.
    - apply List.NoDup_filter. assumption.
    - intros d Hd Hnz. apply Hfirst; [apply Hlive' |]; assumption. }
  destruct (bucket s (VIRT_TO_PAGEHASH (page_virtual s pg))) as [| e tl] eqn:Hb.
  { injection Hfree as <-. exact Hsame. }
  destruct (Z.eqb_spec (page_virtual s (page e)) (Z.land (page_virtual s pg) PAGE_MASK))
    as [He | _].
  2:{ injection Hfree as <-. exact Hsame. }
  injection Hfree as <-.
  pose proof (bucket_nonempty_lt _ _ _ _ Hb) as Hlt.
  set (h := VIRT_TO_PAGEHASH (page_virtual s pg)) in *.
  assert (Hbk : forall i,
             bucket (set_bucket h tl sc) i =
             if Nat.eq_dec (Z.to_nat h) (Z.to_nat i) then tl else bucket s i).
  { intros i. unfold bucket, set_bucket. simpl. destruct (Nat.eq_dec _ _) as [Heq | Hne].
    - rewrite <- Heq, list_lookup_insert_eq by assumption. reflexivity.
    - rewrite list_lookup_insert_ne by assumption. reflexivity. }
  assert (Hvs : page_virtual (set_bucket h tl sc) = page_virtual s) by reflexivity.
  assert (Hks : kmalloc_next (set_bucket h tl sc) = kmalloc_next s) by reflexivity.
  unfold client_inv. rewrite Hvs, Hks. split; [| split; [| split; [| split]]].
  - simpl. rewrite length_insert. assumption.
  - intros i e' He'. rewrite Hbk in He'.
    destruct (Nat.eq_dec _ _) as [Heq | Hne].
    + apply (Hent h). rewrite Hb. right. assumption.
    + apply (Hent i). assumption.
  - intros d Hd. apply Hlive. apply Hlive'. assumption.
  - apply List.NoDup_filter. assumption.
  - intros d Hd' Hnz. destruct (Hlive' d Hd') as [Hd Hdp].
    destruct (Hfirst d Hd Hnz) as [Hal Hfm]. split; [exact Hal |].
    rewrite Hbk. destruct (Nat.eq_dec _ _) as [Heq | Hne]; [| exact Hfm].
    apply hash_to_nat_inj in Heq. rewrite <- Heq in Hfm. fold h in Hfm.
    rewrite Hb in Hfm. cbn [first_match] in Hfm.
    destruct (Z.eqb_spec (page_virtual s (page e)) (page_virtual s d)) as [Hed | _];
      [| exact Hfm].
    exfalso. injection Hfm as Hpe.
    destruct (Z.eq_dec (page_virtual s pg) NULL) as [Hz | Hpz].
    + rewrite Hz in He. unfold NULL in He. rewrite Z.land_0_l in He.
      apply Hnz. unfold NULL. congruence.
    + destruct (Hfirst pg Hin Hpz) as [Halp Hfmp]. fold h in Hfmp.
      rewrite Hb in Hfmp. cbn [first_match] in Hfmp. rewrite Halp in He.
      rewrite He, Z.eqb_refl in Hfmp. congruence.
Qed.

Lemma facade_step_keeps_inv o c c' :
  facade_step o c = Some c' -> client_inv c -> client_inv c'.
Proof.
  destruct c as [s live]. destruct o as [gfp_mask order | page order]; simpl.
  - destruct (grant_ok s live) eqn:Hg; [| discriminate].
    destruct (__alloc_pages gfp_mask order NULL s) as [p s' | | | |] eqn:Ha;
      try discriminate.
    intros [= <-] Hinv. apply alloc_pages_done in Ha as [-> ->].
    apply alloc_keeps_inv; assumption.
  - destruct (existsb (Z.eqb page) live) eqn:Hex; [| discriminate].
    destruct (__free_pages page order s) as [[] s' | | | |] eqn:Hf; try discriminate.
    intros [= <-] Hinv. apply existsb_exists in Hex as (d & Hd & Heq).
    apply Z.eqb_eq in Heq. subst d.
    eapply free_keeps_inv; eassumption.
Qed.

Lemma facade_run_keeps_inv ops : forall c c',
  facade_run ops c = Some c' -> client_inv c -> client_inv c'.
Proof.
  induction ops as [| o ops IH]; intros c c'; simpl.
  - intros [= <-]. auto.
  - destruct (facade_step o c) as [c1 |] eqn:Hstep; [| discriminate].
    intros Hrun Hinv. eapply IH; [eassumption |].
    eapply facade_step_keeps_inv; eassumption.
Qed.

(** Under [client_inv] no two descriptors held for granted blocks share an
    address. *)
Lemma client_inv_distinct_addresses s live d d' :
  client_inv (s, live) ->
  In d live -> In d' live ->
  page_virtual s d <> NULL ->
  page_virtual s d = page_virtual s d' ->
  d = d'.
Proof.
  intros (_ & _ & _ & _ & Hfirst) Hd Hd' Hnz Heq.
  destruct (Hfirst d Hd Hnz) as [_ Hfm].
  destruct (Hfirst d' Hd') as [_ Hfm']; [congruence |].
  rewrite <- Heq in Hfm'. congruence.
Qed.

(** ** The cache after [dde_linux26_page_cache_init] *)

Lemma bucket_set_bucket_nil s i : bucket (set_bucket i [] s) i = [].
Proof.
  unfold bucket, set_bucket. simpl.
  destruct (Nat.lt_ge_cases (Z.to_nat i) (length (dde_linux26_page_cache s))).
  - rewrite list_lookup_insert_eq by assumption. reflexivity.
  - rewrite list_insert_ge by assumption. rewrite lookup_ge_None_2 by assumption.
    reflexivity.
Qed.

Lemma init_heads_empty L : forall s i,
  (exists j, In j L /\ Z.to_nat j = Z.to_nat i) \/ bucket s i = [] ->
  bucket (fold_left (fun s i => set_bucket i [] s) L s) i = [].
Proof.
  induction L as [| x L IH]; intros s i Hi; simpl.
  - destruct Hi as [(j & [] & _) | Hi]. assumption.
  - apply IH.
    destruct (Nat.eq_dec (Z.to_nat x) (Z.to_nat i)) as [Heq | Hne].
    + right. unfold bucket. rewrite <- Heq. apply bucket_set_bucket_nil.
    + destruct Hi as [(j & [<- | Hj] & Hji) | Hi].
      * contradiction.
      * left. exists j. auto.
      * right. rewrite bucket_set_bucket_ne by assumption. assumption.
Qed.

Lemma init_frame L : forall s,
  length (dde_linux26_page_cache (fold_left (fun s i => set_bucket i [] s) L s)) =
  length (dde_linux26_page_cache s).
Proof.
  induction L as [| x L IH]; intros s; simpl; [reflexivity |].
  rewrite IH. simpl. apply length_insert.
Qed.

Lemma init_unfold s :
  dde_linux26_page_cache_init s =
  Done 0 (fold_left (fun s i => set_bucket i [] s) (seqZ 0 DDE_PAGE_CACHE_SIZE) s).
Proof. reflexivity. Qed.

Lemma init_establishes_inv sb s0 :
  length (dde_linux26_page_cache sb) = Z.to_nat DDE_PAGE_CACHE_SIZE ->
  dde_linux26_page_cache_init sb = Done 0 s0 ->
  client_inv (s0, []).
Proof.
  intros Hlen Hinit. rewrite init_unfold in Hinit.
  remember (seqZ 0 DDE_PAGE_CACHE_SIZE) as L eqn:HL.
  injection Hinit as <-.
  assert (Hempty : forall i,
             bucket (fold_left (fun s i => set_bucket i [] s) L sb) i = []).
  { intros i. apply init_heads_empty. subst L.
    destruct (Z_lt_dec i 0); [| destruct (Z_lt_dec i DDE_PAGE_CACHE_SIZE)].
    - left. exists 0. split; [| lia].
      apply list_elem_of_In, elem_of_seqZ. change DDE_PAGE_CACHE_SIZE with 1024. lia.
    - left. exists i. split; [| reflexivity].
      apply list_elem_of_In, elem_of_seqZ. lia.
    - right. unfold bucket. rewrite lookup_ge_None_2 by lia. reflexivity. }
  unfold client_inv. split; [| split; [| split; [| split]]].
  - rewrite init_frame. assumption.
  - intros i e He. rewrite Hempty in He. destruct He.
  - intros d [].
  - apply List.NoDup_nil.
  - intros d [].
Qed.

Lemma first_match_app virtual key l1 e l2 :
  (forall e', In e' l1 -> virtual (page e') <> key) ->
  virtual (page e) = key ->
  first_match virtual key (l1 ++ e :: l2) = Some (page e).
Proof.
  intros Hl1 He. induction l1 as [| x l1 IH]; simpl.
  - rewrite He, Z.eqb_refl. reflexivity.
  - destruct (Z.eqb_spec (virtual (page x)) key) as [Hx | _].
    + exfalso. apply (Hl1 x); [left; reflexivity | assumption].
    + apply IH. intros e' He'. apply Hl1. right. assumption.
Qed.

(** C6: a lookup at any offset inside the page of a descriptor that lies on
    a page boundary returns that descriptor.

    First part, for any world: the descriptor stands in the chain of its
    address and no entry nearer the head of that chain lies at the same
    address.

    Second part, for the descriptors that are live: after any run of
    allocations and frees from the initialised cache, by a client that frees
    only what it holds against a provider that grants page boundaries it
    has not granted to a descriptor still held, every descriptor the client
    holds for a granted block lies on a page boundary and is found at every
    offset inside its page.

    Third part, the reason: an offset inside the page changes neither the
    hash of a page boundary nor what masking the address gives. *)
Theorem lookup_live_descriptor_at_any_offset :
  (forall (s : world) (d o : Z) (l1 l2 : list page_cache_entry),
      Z.land (page_virtual s d) PAGE_MASK = page_virtual s d ->
      bucket s (VIRT_TO_PAGEHASH (page_virtual s d)) = l1 ++ {| page := d |} :: l2 ->
      (forall e, In e l1 -> page_virtual s (page e) <> page_virtual s d) ->
      0 <= o < PAGE_SIZE ->
      dde_linux26_page_lookup (page_virtual s d + o) s = Some d) /\
  (forall (sb s0 s : world) (ops : list op) (live : list Z) (d o : Z),
      length (dde_linux26_page_cache sb) = Z.to_nat DDE_PAGE_CACHE_SIZE ->
      dde_linux26_page_cache_init sb = Done 0 s0 ->
      facade_run ops (s0, []) = Some (s, live) ->
      In d live ->
      page_virtual s d <> NULL ->
      0 <= o < PAGE_SIZE ->
      Z.land (page_virtual s d) PAGE_MASK = page_virtual s d /\
      dde_linux26_page_lookup (page_virtual s d) s = Some d /\
      dde_linux26_page_lookup (page_virtual s d + o) s = Some d) /\
  (forall a o : Z,
      Z.land a PAGE_MASK = a ->
      0 <= o < PAGE_SIZE ->
      VIRT_TO_PAGEHASH (a + o) = VIRT_TO_PAGEHASH a /\
      Z.land (a + o) PAGE_MASK = a).
Proof.
  split; [| split].
  - intros s d o l1 l2 Hal Hb Hl1 Ho.
    rewrite lookup_first_match.
    rewrite land_PAGE_MASK_offset, VIRT_TO_PAGEHASH_offset by assumption.
    rewrite Hb. apply (first_match_app (page_virtual s) (page_virtual s d) l1
                         {| page := d |} l2); [assumption | reflexivity].
  - intros sb s0 s ops live d o Hlen Hinit Hrun Hd Hnz Ho.
    pose proof (init_establishes_inv _ _ Hlen Hinit) as Hinv0.
    pose proof (facade_run_keeps_inv _ _ _ Hrun Hinv0) as (_ & _ & _ & _ & Hfirst).
    destruct (Hfirst d Hd Hnz) as [Hal Hfm]. split; [exact Hal |].
    split.
    + rewrite lookup_first_match, Hal. exact Hfm.
    + rewrite lookup_first_match.
      rewrite land_PAGE_MASK_offset, VIRT_TO_PAGEHASH_offset by assumption.
      exact Hfm.
  - intros a o Ha Ho. split.
    + apply VIRT_TO_PAGEHASH_offset; assumption.
    + apply land_PAGE_MASK_offset; assumption.
Qed.

(** ** The large hash table helper *)

Lemma shl_done x n s :
  0 <= n < BITS_PER_LONG -> shl x n s = Done (ulong (Z.shiftl x n)) s.
Proof.
  intros Hn. unfold shl.
  replace (0 <=? n) with true by (symmetry; apply Z.leb_le; lia).
  replace (n <? BITS_PER_LONG) with true by (symmetry; apply Z.ltb_lt; lia).
  reflexivity.
Qed.

Lemma shl_state x n s r s' : shl x n s = Done r s' -> s' = s.
Proof.
  unfold shl. destruct ((0 <=? n) && (n <? BITS_PER_LONG)); [| discriminate].
  intros [= _ <-]. reflexivity.
Qed.

Lemma shl_any_state x n s r s2 : shl x n s = Done r s -> shl x n s2 = Done r s2.
Proof.
  unfold shl. destruct ((0 <=? n) && (n <? BITS_PER_LONG)); [| discriminate].
  intros [= <-]. reflexivity.
Qed.

(** The bytes of [2 ^ order] pages, while they fit the word. *)
Lemma pages_bytes order :
  0 <= order -> order + PAGE_SHIFT < BITS_PER_LONG ->
  ulong (Z.shiftl (ulong (Z.shiftl 1 order)) PAGE_SHIFT) = PAGE_SIZE * 2 ^ order.
Proof.
  intros Ho Hf.
  assert (Hp : ulong (Z.shiftl 1 order) = 2 ^ order).
  { rewrite Z.shiftl_1_l. apply ulong_small. split; [apply Z.pow_nonneg; lia |].
    apply Z.pow_lt_mono_r; unfold PAGE_SHIFT in *; lia. }
  rewrite Hp, Z.shiftl_mul_pow2 by (unfold PAGE_SHIFT; lia).
  change (2 ^ PAGE_SHIFT) with PAGE_SIZE. rewrite Z.mul_comm.
  transitivity (ulong (Z.shiftl PAGE_SIZE order)).
  - rewrite Z.shiftl_mul_pow2 by assumption. reflexivity.
  - apply request_size_exact; assumption.
Qed.

(** The [for] loop stops at the least order whose bytes cover [size]. *)
Lemma order_for_size_least rounds : forall size order s,
  size <= 2 ^ (BITS_PER_LONG - 1) ->
  0 <= order -> order + PAGE_SHIFT < BITS_PER_LONG ->
  (forall k, 0 <= k < order -> PAGE_SIZE * 2 ^ k < size) ->
  BITS_PER_LONG - PAGE_SHIFT - order <= Z.of_nat rounds ->
  exists o,
    order_for_size rounds size order s = Done o s /\
    order <= o /\ o + PAGE_SHIFT < BITS_PER_LONG /\
    size <= PAGE_SIZE * 2 ^ o /\
    (forall k, 0 <= k < o -> PAGE_SIZE * 2 ^ k < size).
Proof.
  induction rounds as [| rounds IH]; intros size order s Hsize Ho Hf Hbelow Hrounds.
  - lia.
  - cbn [order_for_size]. unfold bind.
    rewrite shl_done by (unfold PAGE_SHIFT in *; lia).
    rewrite shl_done by (unfold PAGE_SHIFT in *; lia).
    rewrite pages_bytes by assumption.
    destruct (Z.ltb_spec (PAGE_SIZE * 2 ^ order) size) as [Hlt | Hge].
    + assert (Hnext : order + 1 + PAGE_SHIFT < BITS_PER_LONG).
      { assert (Hpow : 2 ^ (order + PAGE_SHIFT) < 2 ^ (BITS_PER_LONG - 1)).
        { rewrite Z.pow_add_r by (unfold PAGE_SHIFT; lia).
          change (2 ^ PAGE_SHIFT) with PAGE_SIZE. lia. }
        apply Z.pow_lt_mono_r_iff in Hpow; unfold PAGE_SHIFT in *; lia. }
      assert (Hu : ulong (order + 1) = order + 1).
      { apply ulong_small. split; [lia |].
        pose proof (Z.pow_gt_lin_r 2 BITS_PER_LONG). unfold PAGE_SHIFT in *. lia. }
      rewrite Hu.
      destruct (IH size (order + 1) s) as (o & Hrun & Hle & Hfo & Hcov & Hleast);
        try assumption; try lia.
      * intros k Hk. destruct (Z.eq_dec k order) as [-> | Hne]; [assumption |].
        apply Hbelow. lia.
      * exists o. split; [exact Hrun |]. split; [lia |]. auto.
    + exists order. split; [reflexivity |]. split; [lia |]. auto.
Qed.

Lemma order_for_size_state rounds : forall size order s o s',
  order_for_size rounds size order s = Done o s' ->
  s' = s /\ forall s2, order_for_size rounds size order s2 = Done o s2.
Proof.
  induction rounds as [| rounds IH]; intros size order s o s'; [discriminate |].
  cbn [order_for_size]. unfold bind.
  destruct (shl 1 order s) as [pages s1 | | | |] eqn:H1; try discriminate.
  pose proof (shl_state _ _ _ _ _ H1) as ->.
  destruct (shl pages PAGE_SHIFT s) as [bytes s1 | | | |] eqn:H2; try discriminate.
  pose proof (shl_state _ _ _ _ _ H2) as ->.
  destruct (bytes <? size) eqn:Hlt.
  - intros Hrun. destruct (IH _ _ _ _ _ Hrun) as [-> Hany]. split; [reflexivity |].
    intros s2. rewrite (shl_any_state _ _ _ _ s2 H1), (shl_any_state _ _ _ _ s2 H2), Hlt.
    apply Hany.
  - intros [= <- <-]. split; [reflexivity |].
    intros s2. rewrite (shl_any_state _ _ _ _ s2 H1), (shl_any_state _ _ _ _ s2 H2), Hlt.
    reflexivity.
Qed.

(** Every request that one call of the loop makes is for the same number of
    bytes: those of the order chosen for [size], which the loop never
    assigns. *)
Lemma table_loop_requests_one_size fuel : forall size log2qty s t l s',
  table_loop fuel size log2qty s = Done (t, l) s' ->
  exists order denied,
    order_for_size (S (Z.to_nat BITS_PER_LONG)) size 0 s = Done order s /\
    provider_calls s' =
      LargeMalloc (ulong (Z.shiftl PAGE_SIZE order)) t
      :: repeat (LargeMalloc (ulong (Z.shiftl PAGE_SIZE order)) NULL) denied
      ++ provider_calls s.
Proof.
  induction fuel as [| fuel IH]; intros size log2qty s t l s'; [discriminate |].
  cbn [table_loop]. unfold bind at 1.
  destruct (order_for_size _ size 0 s) as [order s1 | | | |] eqn:Hord; try discriminate.
  destruct (order_for_size_state _ _ _ _ _ _ Hord) as [-> Hany].
  unfold bind at 1.
  destruct (__get_free_pages GFP_ATOMIC order s) as [tb s1 | | | |] eqn:Hget;
    try discriminate.
  assert (Hcalls : provider_calls s1 =
                   LargeMalloc (ulong (Z.shiftl PAGE_SIZE order)) tb :: provider_calls s).
  { revert Hget. unfold __get_free_pages, bind, dde_kit_assert, shl.
    destruct (negb (GFP_ATOMIC =? GFP_DMA)); [| discriminate].
    destruct ((0 <=? order) && (order <? BITS_PER_LONG)); [| discriminate].
    intros [= <- <-]. reflexivity. }
  destruct (Z.eqb_spec tb NULL) as [Htb | Htb]; cbn [negb].
  2:{ intros [= <- <- <-]. exists order, 0%nat. split; [reflexivity | exact Hcalls]. }
  destruct (PAGE_SIZE <? size); cbn [negb].
  2:{ intros [= <- <- <-]. exists order, 0%nat. split; [reflexivity | exact Hcalls]. }
  destruct (ulong (log2qty - 1) =? 0).
  { intros [= <- <- <-]. exists order, 0%nat. split; [reflexivity | exact Hcalls]. }
  intros Hrec. destruct (IH _ _ _ _ _ _ Hrec) as (order' & denied & Hord' & Hc').
  rewrite Hany in Hord'. injection Hord' as <-.
  exists order, (S denied). split; [reflexivity |].
  rewrite Hc', Hcalls, Htb. f_equal.
  change (LargeMalloc (ulong (Z.shiftl PAGE_SIZE order)) NULL :: provider_calls s)
    with ([LargeMalloc (ulong (Z.shiftl PAGE_SIZE order)) NULL] ++ provider_calls s).
  rewrite app_assoc, <- repeat_cons. reflexivity.
Qed.

(** [alloc_large_system_hash] returns with a table or not at all. *)
Lemma alloc_large_system_hash_done fuel bucketsize numentries s r s' :
  alloc_large_system_hash fuel bucketsize numentries s = Done r s' ->
  table r <> NULL.
Proof.
  unfold alloc_large_system_hash, bind.
  destruct (shl bucketsize _ s) as [size s1 | | | |]; try discriminate.
  destruct (table_loop fuel size _ s1) as [[t l] s2 | | | |]; try discriminate.
  destruct (Z.eqb_spec t NULL) as [Ht | Ht]; [discriminate |].
  intros [= <- <-]. exact Ht.
Qed.

(** What one call of [alloc_large_system_hash] asks of the provider: the
    order is the least one that covers [bucketsize << ilog2(numentries)]
    (while a power of two that covers it fits the word), and every request
    of the call, granted or denied, is for the bytes of that order. *)
Lemma alloc_large_system_hash_requests fuel bucketsize numentries s r s' :
  alloc_large_system_hash fuel bucketsize numentries s = Done r s' ->
  table r <> NULL /\
  exists size order denied,
    shl bucketsize (ilog2 (if numentries =? 0 then 1024 else numentries)) s
      = Done size s /\
    provider_calls s' =
      LargeMalloc (ulong (Z.shiftl PAGE_SIZE order)) (table r)
      :: repeat (LargeMalloc (ulong (Z.shiftl PAGE_SIZE order)) NULL) denied
      ++ provider_calls s /\
    (size <= 2 ^ (BITS_PER_LONG - 1) ->
     size <= PAGE_SIZE * 2 ^ order /\
     forall k, 0 <= k < order -> PAGE_SIZE * 2 ^ k < size).
Proof.
  intros Hrun. split; [eapply alloc_large_system_hash_done; eassumption |].
  revert Hrun. unfold alloc_large_system_hash, bind.
  destruct (shl bucketsize _ s) as [size s1 | | | |] eqn:Hsize; try discriminate.
  pose proof (shl_state _ _ _ _ _ Hsize) as ->.
  destruct (table_loop fuel size _ s) as [[t l] s2 | | | |] eqn:Hloop; try discriminate.
  destruct (Z.eqb_spec t NULL) as [Ht | Ht]; [discriminate |].
  intros [= <- <-]. cbn [table].
  destruct (table_loop_requests_one_size _ _ _ _ _ _ _ Hloop)
    as (order & denied & Hord & Hcalls).
  exists size, order, denied. split; [reflexivity |]. split; [exact Hcalls |].
  intros Hfit.
  destruct (order_for_size_least (S (Z.to_nat BITS_PER_LONG)) size 0 s)
    as (o & Hrun & _ & _ & Hcov & Hleast);
    try assumption; try (unfold PAGE_SHIFT in *; lia).
  rewrite Hord in Hrun. injection Hrun as <-. auto.
Qed.

End Properties.

(** * The code at concrete inputs, on Linux 2.6 for 32-bit x86 *)

Section OnLinux26I386.
#[local] Existing Instance linux26_i386.

(** C1: the provider denies the request of [__alloc_pages] (it has no reply
    but [NULL]).  Nevertheless [__alloc_pages] returns a descriptor, not
    [NULL]; the descriptor has [virtual] [NULL], and the cache, empty
    before, holds it afterwards and finds it at address [NULL]. *)
Theorem alloc_pages_registers_denied_request :
  exists s0 p s',
    dde_linux26_page_cache_init (boot_world [NULL]) = Done 0 s0 /\
    hd NULL (large_malloc_replies s0) = NULL /\
    __alloc_pages GFP_KERNEL 0 NULL s0 = Done p s' /\
    provider_calls s' = [LargeMalloc 4096 NULL] /\
    p <> NULL /\
    page_virtual s' p = NULL /\
    cache_entries s0 = 0%nat /\
    cache_entries s' = 1%nat /\
    dde_linux26_page_lookup NULL s' = Some p.
Proof.
  eexists _, _, _.
  split; [reflexivity |]. split; [reflexivity |]. split; [reflexivity |].
  split; [reflexivity |]. split; [discriminate |].
  repeat split; vm_compute; reflexivity.
Qed.

(** C2: two blocks whose addresses fall into the same chain are allocated,
    at [0x1000] and then at [0x401000]; the descriptor [d1] of the first
    therefore stands second in the chain.  After [__free_pages] of [d1] the
    block is back with the provider, yet the chain is as it was and the
    lookup of the address of [d1] still returns [d1]; the removal that the
    specification words, [spec_remove], takes [d1] out of the chain. *)
Theorem free_pages_leaves_descriptor_behind_head :
  exists s0 s2 d1 d2 s3,
    dde_linux26_page_cache_init (boot_world [0x1000; 0x401000]) = Done 0 s0 /\
    facade_run [Alloc GFP_KERNEL 0; Alloc GFP_KERNEL 0] (s0, []) = Some (s2, [d2; d1]) /\
    page_virtual s2 d1 = 0x1000 /\
    page_virtual s2 d2 = 0x401000 /\
    bucket s2 (VIRT_TO_PAGEHASH 0x1000) = [{| page := d2 |}; {| page := d1 |}] /\
    dde_linux26_page_lookup 0x1000 s2 = Some d1 /\
    __free_pages d1 0 s2 = Done tt s3 /\
    provider_calls s3 =
      [LargeFree 0x1000; LargeMalloc 4096 0x401000; LargeMalloc 4096 0x1000] /\
    bucket s3 (VIRT_TO_PAGEHASH 0x1000) = [{| page := d2 |}; {| page := d1 |}] /\
    dde_linux26_page_lookup (page_virtual s3 d1) s3 = Some d1 /\
    bucket (spec_remove (page_virtual s2 d1) s2) (VIRT_TO_PAGEHASH 0x1000) =
      [{| page := d2 |}] /\
    dde_linux26_page_lookup (page_virtual s2 d1) (spec_remove (page_virtual s2 d1) s2) = None.
Proof.
  eexists _, _, _, _, _.
  split; [reflexivity |]. split; [vm_compute; reflexivity |].
  split; [vm_compute; reflexivity |]. split; [vm_compute; reflexivity |].
  split; [vm_compute; reflexivity |]. split; [vm_compute; reflexivity |].
  split; [reflexivity |].
  repeat split; vm_compute; reflexivity.
Qed.

(** C3: a client allocates twice, the provider granting the blocks at
    [0x1000] and at [0x401000], which fall into the same chain; it frees the
    first descriptor [d1], and allocates again, the provider now granting the
    released block at [0x1000] once more, to the descriptor [d3].  The cache
    then holds two descriptors for the address [0x1000], [d3] and the freed
    [d1].  And when the provider denies two requests, the client holds two
    descriptors, both in the cache, that share the address [NULL]. *)
Theorem cache_holds_two_descriptors_for_one_address :
  (exists s0 s d1 d2 d3,
      dde_linux26_page_cache_init (boot_world [0x1000; 0x401000; 0x1000]) = Done 0 s0 /\
      facade_run [Alloc GFP_KERNEL 0; Alloc GFP_KERNEL 0; Free 0x100 0; Alloc GFP_KERNEL 0]
                 (s0, []) = Some (s, [d3; d2]) /\
      d1 = 0x100 /\ d1 <> d3 /\
      page_virtual s d1 = 0x1000 /\
      page_virtual s d3 = 0x1000 /\
      bucket s (VIRT_TO_PAGEHASH 0x1000) =
        [{| page := d3 |}; {| page := d2 |}; {| page := d1 |}] /\
      entries_at 0x1000 s = [d3; d1]) /\
  (exists s0 s d1 d2,
      dde_linux26_page_cache_init (boot_world [NULL; NULL]) = Done 0 s0 /\
      facade_run [Alloc GFP_KERNEL 0; Alloc GFP_KERNEL 0] (s0, []) = Some (s, [d2; d1]) /\
      d1 <> d2 /\
      page_virtual s d1 = NULL /\
      page_virtual s d2 = NULL /\
      entries_at NULL s = [d2; d1]).
Proof.
  split.
  - eexists _, _, _, _, _.
    split; [reflexivity |]. split; [vm_compute; reflexivity |].
    split; [reflexivity |]. split; [discriminate |].
    repeat split; vm_compute; reflexivity.
  - eexists _, _, _, _.
    split; [reflexivity |]. split; [vm_compute; reflexivity |].
    split; [discriminate |].
    repeat split; vm_compute; reflexivity.
Qed.

(** C4: a table of 4096 entries of 4 bytes needs 16384 bytes, order 2.  The
    provider denies the first request and grants the second: the second
    request is again for 16384 bytes, not for 8192, while the table is
    reported with 2048 entries.  When the provider denies every request,
    [alloc_large_system_hash] asks twelve times for 16384 bytes and panics
    without having asked for a single page. *)
Theorem alloc_large_system_hash_retries_same_order :
  (exists s0 r s',
      dde_linux26_page_cache_init (boot_world [NULL; 0x10000]) = Done 0 s0 /\
      alloc_large_system_hash 16 4 4096 s0 = Done r s' /\
      provider_calls s' = [LargeMalloc 16384 0x10000; LargeMalloc 16384 NULL] /\
      table r = 0x10000 /\ hash_shift r = 11 /\ hash_mask r = 2047) /\
  (exists s0 s',
      dde_linux26_page_cache_init (boot_world []) = Done 0 s0 /\
      alloc_large_system_hash 16 4 4096 s0 = Panicked s' /\
      provider_calls s' = repeat (LargeMalloc 16384 NULL) 12).
Proof.
  split.
  - eexists _, _, _.
    split; [reflexivity |]. split; [vm_compute; reflexivity |].
    repeat split; vm_compute; reflexivity.
  - eexists _, _.
    split; [reflexivity |]. split; [vm_compute; reflexivity |].
    vm_compute; reflexivity.
Qed.

(** ** The general properties at concrete inputs *)

Lemma word_fits_i386 : PAGE_SHIFT < BITS_PER_LONG.
Proof. reflexivity. Defined.

Lemma handed_in_world_empty i : bucket handed_in_world i = [].
Proof.
  unfold bucket.
  change (dde_linux26_page_cache handed_in_world)
    with (replicate (Z.to_nat DDE_PAGE_CACHE_SIZE) (@nil page_cache_entry)).
  destruct (replicate _ _ !! _) as [h |] eqn:E; [| reflexivity].
  apply lookup_replicate in E as [-> _]. reflexivity.
Qed.

Lemma get_free_pages_asserts_memory_class_witness :
  __get_free_pages GFP_DMA 0 (boot_world [0x1000]) = AssertionFailed (boot_world [0x1000]) /\
  exists s',
    __get_free_pages GFP_KERNEL 0 (boot_world [0x1000]) = Done 0x1000 s' /\
    provider_calls s' = [LargeMalloc 4096 0x1000].
Proof.
  split.
  - apply (get_free_pages_asserts_memory_class GFP_DMA 0 NULL (boot_world [0x1000]));
      [simpl; lia | reflexivity].
  - destruct (get_free_pages_asserts_memory_class GFP_KERNEL 0 NULL (boot_world [0x1000]))
      as (_ & _ & _ & Hok); [simpl; lia |].
    destruct Hok as [_ (s' & Hret & Hcalls)]; [discriminate |].
    exists s'. split; [exact Hret | exact Hcalls].
Defined.

Lemma alloc_requests_page_size_shl_order_witness :
  exists s1,
    __get_free_pages GFP_KERNEL 3 (boot_world [0x8000]) = Done 0x8000 s1 /\
    provider_calls s1 = [LargeMalloc 32768 0x8000].
Proof.
  destruct (alloc_requests_page_size_shl_order word_fits_i386
              GFP_KERNEL 3 NULL (boot_world [0x8000]))
    as ((s1 & Hret & Hcalls) & _); [discriminate | simpl; lia |].
  exists s1. split; [exact Hret | exact Hcalls].
Defined.

Lemma get_zeroed_page_zeroes_one_page_witness :
  exists s',
    get_zeroed_page GFP_KERNEL (boot_world [0x3000]) = Done 0x3000 s' /\
    memory (boot_world [0x3000]) 0x3fff = 0xaa /\
    memory s' 0x3000 = 0 /\ memory s' 0x3fff = 0 /\ memory s' 0x4000 = 0xaa.
Proof.
  destruct (get_zeroed_page_zeroes_one_page word_fits_i386
              GFP_KERNEL (boot_world [0x3000]))
    as (s1 & s' & _ & Hret & _ & Hzero & _); [discriminate |].
  destruct Hzero as [Hin Hout]; [discriminate |].
  exists s'. split; [exact Hret |]. split; [reflexivity |].
  split; [apply (Hin 0); change PAGE_SIZE with 4096; lia |].
  split; [apply (Hin 0xfff); change PAGE_SIZE with 4096; lia |].
  rewrite (Hout 0x4000); [reflexivity | change PAGE_SIZE with 4096; simpl; lia].
Defined.

Lemma remove_of_absent_entry_is_noop_witness :
  dde_linux26_page_cache_remove 1 handed_in_world = Done tt handed_in_world /\
  exists s1 s2,
    dde_linux26_page_cache_add 1 handed_in_world = Done tt s1 /\
    dde_linux26_page_lookup 0x1000 s1 = Some 1 /\
    dde_linux26_page_cache_remove 1 s1 = Done tt s2 /\
    dde_linux26_page_cache s2 = dde_linux26_page_cache handed_in_world /\
    dde_linux26_page_cache_remove 1 s2 = Done tt s2.
Proof.
  destruct remove_of_absent_entry_is_noop as (Habsent & Htwice & _).
  split.
  - apply Habsent. intros i e He. rewrite handed_in_world_empty in He. destruct He.
  - destruct (Htwice handed_in_world 1) as (s1 & s2 & Hadd & Hrem & Hnoop & Hcache).
    + vm_compute. reflexivity.
    + intros i e He. rewrite handed_in_world_empty in He. destruct He.
    + exists s1, s2. split; [exact Hadd |].
      split; [| split; [exact Hrem | split; [apply Hcache; reflexivity | exact Hnoop]]].
      injection Hadd as <-. vm_compute. reflexivity.
Defined.

Lemma lookup_returns_most_recently_added_witness :
  exists s',
    cache_run [CacheAdd 4; CacheAdd 2; CacheRemove 4; CacheAdd 6; CacheAdd 3; CacheAdd 5]
              (set_bucket 1 [{| page := 1 |}] handed_in_world) = Done tt s' /\
    dde_linux26_page_lookup 0x1000 s' = Some 3.
Proof.
  destruct (lookup_returns_most_recently_added
              (set_bucket 1 [{| page := 1 |}] handed_in_world) 0x1000
              [CacheAdd 4; CacheAdd 2; CacheRemove 4; CacheAdd 6; CacheAdd 3; CacheAdd 5])
    as (_ & s' & Hrun & _ & _ & Hlast).
  - vm_compute. reflexivity.
  - reflexivity.
  - exists s'. split; [exact Hrun |]. apply Hlast. reflexivity.
Defined.

Lemma lookup_live_descriptor_at_any_offset_witness :
  exists s0 s live,
    dde_linux26_page_cache_init (boot_world [0x1000; 0x401000]) = Done 0 s0 /\
    facade_run [Alloc GFP_KERNEL 0; Alloc GFP_KERNEL 0] (s0, []) = Some (s, live) /\
    In 0x100 live /\
    page_virtual s 0x100 = 0x1000 /\
    dde_linux26_page_lookup (page_virtual s 0x100 + 0x10) s = Some 0x100.
Proof.
  eexists _, _, _.
  split; [reflexivity |]. split; [vm_compute; reflexivity |].
  split; [right; left; reflexivity |]. split; [vm_compute; reflexivity |].
  refine (proj2 (proj2 (proj1 (proj2 (lookup_live_descriptor_at_any_offset word_fits_i386))
                  (boot_world [0x1000; 0x401000]) _ _
                  [Alloc GFP_KERNEL 0; Alloc GFP_KERNEL 0] _ 0x100 0x10 _ _ _ _ _ _))).
  - vm_compute. reflexivity.
  - reflexivity.
  - vm_compute. reflexivity.
  - right. left. reflexivity.
  - vm_compute. discriminate.
  - change PAGE_SIZE with 4096. lia.
Defined.

End OnLinux26I386.

(** * Further properties of the code *)

Section MoreProperties.
Context `{Platform}.

Hypothesis word_fits : PAGE_SHIFT < BITS_PER_LONG.

Ltac chain_cases a b Heq Hneq :=
  destruct (Nat.eq_dec (Z.to_nat (VIRT_TO_PAGEHASH a)) (Z.to_nat (VIRT_TO_PAGEHASH b)))
    as [Heq | Hneq];
  [apply hash_to_nat_inj in Heq |].

(** ** The hash and the page of an address *)

Lemma hash_page_number a :
  VIRT_TO_PAGEHASH a = (a / PAGE_SIZE) mod DDE_PAGE_CACHE_SIZE.
Proof.
  unfold VIRT_TO_PAGEHASH. change DDE_PAGE_CACHE_MASK with (Z.ones 10).
  rewrite Z.land_ones by lia. rewrite Z.shiftr_div_pow2 by (unfold PAGE_SHIFT; lia).
  reflexivity.
Qed.

(** X3: the hash of an address is the number of its page modulo the number
    of chains.  It is an index into the table for every address; addresses
    of one page have one hash, and so have addresses that lie a multiple of
    [PAGE_SIZE * DDE_PAGE_CACHE_SIZE] bytes apart. *)
Theorem VIRT_TO_PAGEHASH_is_page_number_mod_chains :
  forall a : Z,
    VIRT_TO_PAGEHASH a = (a / PAGE_SIZE) mod DDE_PAGE_CACHE_SIZE /\
    0 <= VIRT_TO_PAGEHASH a < DDE_PAGE_CACHE_SIZE /\
    (forall b, a / PAGE_SIZE = b / PAGE_SIZE -> VIRT_TO_PAGEHASH a = VIRT_TO_PAGEHASH b) /\
    (forall k, VIRT_TO_PAGEHASH (a + k * (PAGE_SIZE * DDE_PAGE_CACHE_SIZE))
               = VIRT_TO_PAGEHASH a).
Proof.
  intros a. split; [apply hash_page_number |].
  split; [apply VIRT_TO_PAGEHASH_range |]. split.
  - intros b Hab. rewrite !hash_page_number, Hab. reflexivity.
  - intros k. rewrite !hash_page_number.
    change PAGE_SIZE with 4096. change DDE_PAGE_CACHE_SIZE with 1024.
    replace (a + k * (4096 * 1024)) with (a + (k * 1024) * 4096) by lia.
    rewrite Z.div_add by lia. rewrite Z.mod_add by lia. reflexivity.
Qed.

(** ** Lookup *)

Lemma first_match_sound virtual key h d :
  first_match virtual key h = Some d ->
  In {| page := d |} h /\ virtual d = key.
Proof.
  induction h as [| [q] tl IH]; simpl; [discriminate |].
  destruct (Z.eqb_spec (virtual q) key) as [Hq | _].
  - intros [= <-]. auto.
  - intros Hm. destruct (IH Hm). auto.
Qed.

Lemma first_match_none virtual key h :
  first_match virtual key h = None <->
  forall e, In e h -> virtual (page e) <> key.
Proof.
  induction h as [| e tl IH]; simpl.
  - split; [intros _ e [] | reflexivity].
  - destruct (Z.eqb_spec (virtual (page e)) key) as [He | He].
    + split; [discriminate |]. intros Habs. exfalso. apply (Habs e); auto.
    + rewrite IH. split.
      * intros Htl e' [<- | He']; auto.
      * intros Hall e' He'. apply Hall. auto.
Qed.

Lemma land_PAGE_MASK_idem a :
  Z.land (Z.land a PAGE_MASK) PAGE_MASK = Z.land a PAGE_MASK.
Proof. rewrite <- Z.land_assoc, Z.land_diag. reflexivity. Qed.

(** X2: [dde_linux26_page_lookup] answers with an exact match or not at
    all.  A page it returns stands in the chain of the address looked up and
    lies at the page boundary of that address, whatever else shares the
    chain; and it returns [NULL] exactly when no entry of that chain lies at
    that page boundary.  So a page whose [virtual] is not a page boundary is
    never returned. *)
Theorem lookup_returns_exact_match_only :
  forall (s : world) (va : Z),
    (forall d,
        dde_linux26_page_lookup va s = Some d ->
        In {| page := d |} (bucket s (VIRT_TO_PAGEHASH va)) /\
        page_virtual s d = Z.land va PAGE_MASK /\
        Z.land (page_virtual s d) PAGE_MASK = page_virtual s d) /\
    (dde_linux26_page_lookup va s = None <->
     forall e, In e (bucket s (VIRT_TO_PAGEHASH va)) ->
               page_virtual s (page e) <> Z.land va PAGE_MASK).
Proof.
  intros s va. rewrite lookup_first_match. split.
  - intros d Hd. apply first_match_sound in Hd as [Hin Hv].
    split; [exact Hin |]. split; [exact Hv |].
    rewrite Hv. apply land_PAGE_MASK_idem.
  - apply first_match_none.
Qed.

Lemma same_page_same_key a b :
  0 <= a < 2 ^ BITS_PER_LONG -> 0 <= b < 2 ^ BITS_PER_LONG ->
  a / PAGE_SIZE = b / PAGE_SIZE ->
  Z.land a PAGE_MASK = Z.land b PAGE_MASK /\ VIRT_TO_PAGEHASH a = VIRT_TO_PAGEHASH b.
Proof.
  intros Ha Hb Hab. split.
  - rewrite !(land_PAGE_MASK word_fits), !ulong_small by assumption.
    rewrite Hab. reflexivity.
  - rewrite !hash_page_number, Hab. reflexivity.
Qed.

(** X4: lookup and removal see an address only through its page.  Two
    addresses of one page get the same answer from
    [dde_linux26_page_lookup] in every world, found or not; and
    [dde_linux26_page_cache_remove] does the same for two pages that lie in
    one page: it goes by the address of the page it is given, not by the
    page. *)
Theorem lookup_and_remove_go_by_page :
  forall (s : world) (a b : Z),
    0 <= a < 2 ^ BITS_PER_LONG ->
    0 <= b < 2 ^ BITS_PER_LONG ->
    a / PAGE_SIZE = b / PAGE_SIZE ->
    dde_linux26_page_lookup a s = dde_linux26_page_lookup b s /\
    (forall p q,
        page_virtual s p = a -> page_virtual s q = b ->
        dde_linux26_page_cache_remove p s = dde_linux26_page_cache_remove q s).
Proof.
  intros s a b Ha Hb Hab.
  destruct (same_page_same_key a b Ha Hb Hab) as [Hkey Hhash]. split.
  - rewrite !lookup_first_match, Hkey, Hhash. reflexivity.
  - intros p q Hp Hq. rewrite !remove_unfold, Hp, Hq, Hkey, Hhash. reflexivity.
Qed.

(** ** Initialisation *)

Lemma init_fold_frame L : forall s,
  let s' := fold_left (fun s i => set_bucket i [] s) L s in
  page_virtual s' = page_virtual s /\ kmalloc_next s' = kmalloc_next s /\
  memory s' = memory s /\ large_malloc_replies s' = large_malloc_replies s /\
  provider_calls s' = provider_calls s.
Proof.
  induction L as [| x L IH]; intros s; simpl; [auto 6 |].
  destruct (IH (set_bucket x [] s)) as (H1 & H2 & H3 & H4 & H5).
  simpl in *. auto 6.
Qed.

Lemma init_bucket_empty s i :
  0 <= i < DDE_PAGE_CACHE_SIZE ->
  bucket (fold_left (fun s i => set_bucket i [] s) (seqZ 0 DDE_PAGE_CACHE_SIZE) s) i = [].
Proof.
  intros Hi. apply init_heads_empty. left. exists i. split; [| reflexivity].
  apply list_elem_of_In, elem_of_seqZ. lia.
Qed.

Lemma page_cache_init_empties_table_aux s :
  length (dde_linux26_page_cache s) = Z.to_nat DDE_PAGE_CACHE_SIZE ->
  exists s0,
    dde_linux26_page_cache_init s = Done 0 s0 /\
    length (dde_linux26_page_cache s0) = Z.to_nat DDE_PAGE_CACHE_SIZE /\
    cache_entries s0 = 0%nat.
Proof.
  intros Hlen. rewrite init_unfold. eexists. split; [reflexivity |].
  set (s0 := fold_left _ _ s).
  assert (Hlen0 : length (dde_linux26_page_cache s0) = Z.to_nat DDE_PAGE_CACHE_SIZE)
    by (unfold s0; rewrite init_frame; assumption).
  split; [exact Hlen0 |].
  assert (Hrep : dde_linux26_page_cache s0 = replicate (Z.to_nat DDE_PAGE_CACHE_SIZE) []).
  { symmetry. apply replicate_as_Forall. split; [assumption |].
    apply Forall_lookup. intros i h Hi.
    pose proof (lookup_lt_Some _ _ _ Hi) as Hlt.
    pose proof (init_bucket_empty s (Z.of_nat i)) as Hb. fold s0 in Hb.
    unfold bucket in Hb. rewrite Nat2Z.id, Hi in Hb. simpl in Hb.
    symmetry. apply Hb. lia. }
  unfold cache_entries. rewrite Hrep.
  generalize (Z.to_nat DDE_PAGE_CACHE_SIZE). intros n.
  induction n as [| n IH]; [reflexivity | exact IH].
Qed.

(** X1: [dde_linux26_page_cache_init] returns 0 and empties the table,
    whatever it held: every chain head is empty and every lookup answers
    [NULL] afterwards.  Nothing but the table is touched; the provider is
    not called. *)
Theorem page_cache_init_empties_table :
  forall s : world,
    length (dde_linux26_page_cache s) = Z.to_nat DDE_PAGE_CACHE_SIZE ->
    exists s0,
      dde_linux26_page_cache_init s = Done 0 s0 /\
      dde_linux26_page_cache s0 = replicate (Z.to_nat DDE_PAGE_CACHE_SIZE) [] /\
      cache_entries s0 = 0%nat /\
      (forall va, dde_linux26_page_lookup va s0 = None) /\
      page_virtual s0 = page_virtual s /\
      memory s0 = memory s /\
      provider_calls s0 = provider_calls s.
Proof.
  intros s Hlen. rewrite init_unfold. eexists. split; [reflexivity |].
  set (s0 := fold_left _ _ s).
  assert (Hlen0 : length (dde_linux26_page_cache s0) = Z.to_nat DDE_PAGE_CACHE_SIZE)
    by (unfold s0; rewrite init_frame; assumption).
  assert (Hrep : dde_linux26_page_cache s0 = replicate (Z.to_nat DDE_PAGE_CACHE_SIZE) []).
  { symmetry. apply replicate_as_Forall. split; [assumption |].
    apply Forall_lookup. intros i h Hi.
    pose proof (lookup_lt_Some _ _ _ Hi) as Hlt.
    pose proof (init_bucket_empty s (Z.of_nat i)) as Hb. fold s0 in Hb.
    unfold bucket in Hb. rewrite Nat2Z.id, Hi in Hb. simpl in Hb.
    symmetry. apply Hb. lia. }
  split; [exact Hrep |]. split.
  - unfold cache_entries. rewrite Hrep.
    generalize (Z.to_nat DDE_PAGE_CACHE_SIZE). intros n.
    induction n as [| n IH]; [reflexivity | exact IH].
  - split.
    + intros va. rewrite lookup_first_match.
      unfold s0. rewrite init_bucket_empty by apply VIRT_TO_PAGEHASH_range.
      reflexivity.
    + destruct (init_fold_frame (seqZ 0 DDE_PAGE_CACHE_SIZE) s) as (H1 & _ & H3 & _ & H5).
      auto.
Qed.

(** ** Allocation and lookup *)

Lemma hash_of_page_boundary va :
  0 <= va < 2 ^ BITS_PER_LONG ->
  VIRT_TO_PAGEHASH (Z.land va PAGE_MASK) = VIRT_TO_PAGEHASH va.
Proof.
  intros Hva. rewrite (land_PAGE_MASK word_fits), ulong_small by assumption.
  rewrite !hash_page_number. change PAGE_SIZE with 4096.
  rewrite (Z.mul_comm 4096), Z.div_mul by lia. reflexivity.
Qed.

Lemma page_boundary_offset_range r o :
  Z.land r PAGE_MASK = r -> 0 <= o < PAGE_SIZE ->
  0 <= r + o < 2 ^ BITS_PER_LONG.
Proof.
  intros Hr Ho. apply (page_boundary_iff word_fits) in Hr as [Hrange Hm].
  pose proof (word_split word_fits) as Hw. change PAGE_SIZE with 4096 in *.
  set (k := 2 ^ (BITS_PER_LONG - PAGE_SHIFT)) in *.
  apply Z.mod_divide in Hm as [q Hq]; [| lia]. nia.
Qed.

Lemma lookup_frame s s' va :
  dde_linux26_page_cache s' = dde_linux26_page_cache s ->
  page_virtual s' = page_virtual s ->
  dde_linux26_page_lookup va s' = dde_linux26_page_lookup va s.
Proof.
  intros Hc Hv. rewrite !lookup_first_match. unfold bucket. rewrite Hc, Hv. reflexivity.
Qed.

Lemma lookup_allocated order s va :
  length (dde_linux26_page_cache s) = Z.to_nat DDE_PAGE_CACHE_SIZE ->
  (forall i e, In e (bucket s i) -> page e <> kmalloc_next s) ->
  0 <= va < 2 ^ BITS_PER_LONG ->
  dde_linux26_page_lookup va (allocated order s) =
  if Z.land va PAGE_MASK =? hd NULL (large_malloc_replies s)
  then Some (kmalloc_next s)
  else dde_linux26_page_lookup va s.
Proof.
  intros Hlen Hfresh Hva.
  set (r := hd NULL (large_malloc_replies s)). set (p := kmalloc_next s) in *.
  rewrite !lookup_first_match.
  assert (Hext : forall i,
             first_match (page_virtual (allocated order s)) (Z.land va PAGE_MASK)
                         (bucket s i) =
             first_match (page_virtual s) (Z.land va PAGE_MASK) (bucket s i)).
  { intros i. apply first_match_ext. intros e He. simpl. fold p.
    destruct (Z.eqb_spec (page e) p) as [Hep | _]; [| reflexivity].
    exfalso. apply (Hfresh i e He). exact Hep. }
  rewrite bucket_allocated by assumption. fold r p.
  destruct (Nat.eq_dec _ _) as [Heq | Hneq].
  - cbn [first_match page].
    replace (page_virtual (allocated order s) p) with r
      by (simpl; fold p; rewrite Z.eqb_refl; reflexivity).
    rewrite (Z.eqb_sym r). destruct (_ =? r); [reflexivity | apply Hext].
  - rewrite Hext.
    destruct (Z.eqb_spec (Z.land va PAGE_MASK) r) as [Hk | _]; [| reflexivity].
    exfalso. apply Hneq. rewrite <- Hk, hash_of_page_boundary by assumption.
    reflexivity.
Qed.

(** X5: what [dde_linux26_page_lookup] answers after [__alloc_pages], in a
    world whose chains do not yet refer to the new [struct page].  The new
    descriptor is found exactly under the page boundary of the block the
    provider answered with; every other lookup answers as before.  So a
    granted block resolves to its descriptor at every offset of its first
    page, and at no offset beyond: the further pages of a multi-page
    allocation are not known to the cache. *)
Theorem alloc_pages_registers_first_page_only :
  forall (gfp_mask order zonelist : Z) (s : world),
    gfp_mask <> GFP_DMA ->
    0 <= order < BITS_PER_LONG ->
    length (dde_linux26_page_cache s) = Z.to_nat DDE_PAGE_CACHE_SIZE ->
    (forall i e, In e (bucket s i) -> page e <> kmalloc_next s) ->
    exists s',
      __alloc_pages gfp_mask order zonelist s = Done (kmalloc_next s) s' /\
      page_virtual s' (kmalloc_next s) = hd NULL (large_malloc_replies s) /\
      (forall va,
          0 <= va < 2 ^ BITS_PER_LONG ->
          dde_linux26_page_lookup va s' =
          if Z.land va PAGE_MASK =? hd NULL (large_malloc_replies s)
          then Some (kmalloc_next s)
          else dde_linux26_page_lookup va s) /\
      (Z.land (hd NULL (large_malloc_replies s)) PAGE_MASK
         = hd NULL (large_malloc_replies s) ->
       (forall o,
           0 <= o < PAGE_SIZE ->
           dde_linux26_page_lookup (hd NULL (large_malloc_replies s) + o) s'
             = Some (kmalloc_next s)) /\
       (forall o,
           PAGE_SIZE <= o ->
           hd NULL (large_malloc_replies s) + o < 2 ^ BITS_PER_LONG ->
           dde_linux26_page_lookup (hd NULL (large_malloc_replies s) + o) s'
             = dde_linux26_page_lookup (hd NULL (large_malloc_replies s) + o) s)).
Proof.
  intros gfp_mask order zonelist s Hg Ho Hlen Hfresh.
  exists (allocated order s).
  split; [apply alloc_pages_unfold; assumption |].
  set (r := hd NULL (large_malloc_replies s)).
  split; [simpl; rewrite Z.eqb_refl; reflexivity |].
  split; [intros va Hva; apply lookup_allocated; assumption |].
  intros Hr. split.
  - intros o Hoff.
    rewrite lookup_allocated by
      (try assumption; apply page_boundary_offset_range; assumption).
    fold r. rewrite (land_PAGE_MASK_offset word_fits) by assumption.
    rewrite Z.eqb_refl. reflexivity.
  - intros o Hoff Hfit.
    pose proof (proj1 (page_boundary_iff word_fits r) Hr) as [Hrange Hm].
    change PAGE_SIZE with 4096 in *.
    rewrite lookup_allocated by (try assumption; lia). fold r.
    destruct (Z.eqb_spec (Z.land (r + o) PAGE_MASK) r) as [Hk | _]; [| reflexivity].
    exfalso. rewrite (land_PAGE_MASK word_fits), ulong_small in Hk by lia.
    change PAGE_SIZE with 4096 in Hk.
    apply Z.mod_divide in Hm as [q Hq]; [| lia]. subst r. rewrite Hq in Hk.
    replace (q * 4096 + o) with ((o - 4096) + (q + 1) * 4096) in Hk by lia.
    rewrite Z.div_add in Hk by lia.
    pose proof (Z.div_pos (o - 4096) 4096). lia.
Qed.

(** X6: an allocation followed by [__free_pages] of the descriptor it
    returned, with whatever order, undoes the registration: when the
    provider answered with a page boundary ([NULL] included), the table is
    afterwards as it was before the allocation, the provider has been asked
    for the block and handed it back, and in a world whose chains did not
    refer to the new [struct page] every lookup answers as before. *)
Theorem alloc_then_free_restores_table :
  forall (gfp_mask order order' zonelist : Z) (s : world),
    gfp_mask <> GFP_DMA ->
    0 <= order < BITS_PER_LONG ->
    length (dde_linux26_page_cache s) = Z.to_nat DDE_PAGE_CACHE_SIZE ->
    Z.land (hd NULL (large_malloc_replies s)) PAGE_MASK
      = hd NULL (large_malloc_replies s) ->
    exists s1 s2,
      __alloc_pages gfp_mask order zonelist s = Done (kmalloc_next s) s1 /\
      __free_pages (kmalloc_next s) order' s1 = Done tt s2 /\
      dde_linux26_page_cache s2 = dde_linux26_page_cache s /\
      provider_calls s2 =
        LargeFree (hd NULL (large_malloc_replies s))
        :: LargeMalloc (ulong (Z.shiftl PAGE_SIZE order)) (hd NULL (large_malloc_replies s))
        :: provider_calls s /\
      ((forall i e, In e (bucket s i) -> page e <> kmalloc_next s) ->
       forall va, dde_linux26_page_lookup va s2 = dde_linux26_page_lookup va s).
Proof.
  intros gfp_mask order order' zonelist s Hg Ho Hlen Hr.
  set (r := hd NULL (large_malloc_replies s)) in *. set (p := kmalloc_next s).
  set (s1 := allocated order s).
  assert (Hvp : page_virtual s1 p = r)
    by (simpl; fold p; rewrite Z.eqb_refl; reflexivity).
  pose proof (hash_in_cache s r Hlen) as Hin.
  set (sc := set_provider (large_malloc_replies s1)
               (LargeFree (page_virtual s1 p) :: provider_calls s1) s1).
  set (s2 := set_bucket (VIRT_TO_PAGEHASH r) (bucket s (VIRT_TO_PAGEHASH r)) sc).
  assert (Hfree : __free_pages p order' s1 = Done tt s2).
  { rewrite free_pages_unfold, remove_unfold. fold sc.
    change (page_virtual sc) with (page_virtual s1). rewrite Hvp.
    change (bucket sc) with (bucket s1). unfold s1.
    rewrite bucket_allocated by assumption. fold r p.
    destruct (Nat.eq_dec _ _); [| contradiction].
    cbn [page]. fold s1. rewrite Hvp, Hr, Z.eqb_refl. reflexivity. }
  assert (Hc2 : dde_linux26_page_cache s2 = dde_linux26_page_cache s).
  { unfold s2, sc, s1, set_bucket, allocated. simpl. fold r.
    rewrite list_insert_insert_eq. apply list_insert_id. unfold bucket.
    destruct (lookup_lt_is_Some_2 _ _ Hin) as [b Hb]. rewrite Hb. reflexivity. }
  exists s1, s2. split; [apply alloc_pages_unfold; assumption |].
  split; [exact Hfree |]. split; [exact Hc2 |]. split.
  - unfold s2, sc. simpl. fold p r. rewrite Z.eqb_refl. reflexivity.
  - intros Hfresh va. rewrite !lookup_first_match. unfold bucket. rewrite Hc2.
    apply first_match_ext. intros e He. simpl. fold p.
    destruct (Z.eqb_spec (page e) p) as [Hep | _]; [| reflexivity].
    exfalso. apply (Hfresh (VIRT_TO_PAGEHASH va) e); assumption.
Qed.

(** X7: the raw paths do not touch the page cache.  Whatever
    [__get_free_pages], [get_zeroed_page] and [free_pages] return, the table
    and the [struct page] objects are as before and every lookup answers as
    before: memory obtained raw is not registered, and handing a block back
    with [free_pages] leaves its descriptor, if it has one, in the cache. *)
Theorem raw_paths_leave_cache_alone :
  forall (gfp_mask order addr : Z) (s : world),
    (forall r s',
        __get_free_pages gfp_mask order s = Done r s' ->
        dde_linux26_page_cache s' = dde_linux26_page_cache s /\
        page_virtual s' = page_virtual s /\
        forall va, dde_linux26_page_lookup va s' = dde_linux26_page_lookup va s) /\
    (forall r s',
        get_zeroed_page gfp_mask s = Done r s' ->
        dde_linux26_page_cache s' = dde_linux26_page_cache s /\
        page_virtual s' = page_virtual s /\
        forall va, dde_linux26_page_lookup va s' = dde_linux26_page_lookup va s) /\
    (exists s',
        free_pages addr order s = Done tt s' /\
        provider_calls s' = LargeFree addr :: provider_calls s /\
        dde_linux26_page_cache s' = dde_linux26_page_cache s /\
        page_virtual s' = page_virtual s /\
        forall va, dde_linux26_page_lookup va s' = dde_linux26_page_lookup va s).
Proof.
  intros gfp_mask order addr s.
  assert (Hget : forall o r s',
             __get_free_pages gfp_mask o s = Done r s' ->
             dde_linux26_page_cache s' = dde_linux26_page_cache s /\
             page_virtual s' = page_virtual s).
  { intros o r s'. unfold __get_free_pages, bind, dde_kit_assert, shl.
    destruct (negb (gfp_mask =? GFP_DMA)); [| discriminate].
    destruct ((0 <=? o) && (o <? BITS_PER_LONG)); [| discriminate].
    intros [= _ <-]. split; reflexivity. }
  split; [| split].
  - intros r s' Hrun. destruct (Hget _ _ _ Hrun) as [Hc Hv].
    split; [exact Hc |]. split; [exact Hv |]. intros va. apply lookup_frame; assumption.
  - intros r s'. unfold get_zeroed_page, bind at 1.
    destruct (__get_free_pages gfp_mask 0 s) as [p s1 | | | |] eqn:Hrun;
      try discriminate.
    destruct (Hget _ _ _ Hrun) as [Hc Hv]. unfold bind.
    destruct (negb (p =? 0)); intros [= _ <-].
    + split; [exact Hc |]. split; [exact Hv |].
      intros va. apply lookup_frame; assumption.
    + split; [exact Hc |]. split; [exact Hv |].
      intros va. apply lookup_frame; assumption.
  - eexists. split; [reflexivity |]. split; [reflexivity |].
    split; [reflexivity |]. split; [reflexivity |].
    intros va. apply lookup_frame; reflexivity.
Qed.

(** ** The retry loop of [alloc_large_system_hash] *)

Lemma reply_tl i s cs :
  reply i (set_provider (tl (large_malloc_replies s)) cs s) = reply (S i) s.
Proof.
  unfold reply. simpl. destruct (large_malloc_replies s); [destruct i |]; reflexivity.
Qed.

Lemma get_free_pages_atomic order s :
  GFP_ATOMIC <> GFP_DMA -> 0 <= order < BITS_PER_LONG ->
  __get_free_pages GFP_ATOMIC order s =
  Done (reply 0 s)
       (set_provider (tl (large_malloc_replies s))
          (LargeMalloc (ulong (Z.shiftl PAGE_SIZE order)) (reply 0 s) :: provider_calls s)
          s).
Proof.
  intros Hg Ho. rewrite get_free_pages_unfold by assumption.
  unfold dde_kit_large_malloc, reply. destruct (large_malloc_replies s); reflexivity.
Qed.

Lemma word_exceeds_width : BITS_PER_LONG < 2 ^ BITS_PER_LONG.
Proof. apply Z.pow_gt_lin_r; unfold PAGE_SHIFT in *; lia. Qed.

Lemma ulong_pred_nonzero l :
  0 <= l < 2 ^ BITS_PER_LONG -> 1 < retry_rounds l ->
  ulong (l - 1) <> 0 /\ retry_rounds (ulong (l - 1)) = retry_rounds l - 1.
Proof.
  intros Hl Hr. unfold retry_rounds in *.
  destruct (Z.eqb_spec l 0) as [-> | Hl0].
  - assert (Hm : ulong (0 - 1) = 2 ^ BITS_PER_LONG - 1).
    { unfold ulong. symmetry. apply (Z.mod_unique_pos _ _ (-1)); lia. }
    rewrite Hm. destruct (Z.eqb_spec (2 ^ BITS_PER_LONG - 1) 0); lia.
  - rewrite ulong_small by lia. destruct (Z.eqb_spec (l - 1) 0); lia.
Qed.

Lemma ulong_pred_zero l :
  0 <= l < 2 ^ BITS_PER_LONG -> retry_rounds l = 1 -> ulong (l - 1) = 0.
Proof.
  intros Hl Hr. unfold retry_rounds in *. pose proof word_exceeds_width.
  destruct (Z.eqb_spec l 0) as [-> | Hl0]; [unfold PAGE_SHIFT in *; lia |].
  subst l. reflexivity.
Qed.

Lemma retry_rounds_pos l : 0 <= l -> 0 < retry_rounds l.
Proof.
  intros Hl. unfold retry_rounds. destruct (Z.eqb_spec l 0); [| lia].
  apply Z.pow_pos_nonneg; unfold PAGE_SHIFT in *; lia.
Qed.

Lemma repeat_snoc_cons {A} (x : A) k L :
  repeat x k ++ x :: L = repeat x (S k) ++ L.
Proof.
  change (x :: L) with ([x] ++ L). rewrite app_assoc, <- repeat_cons. reflexivity.
Qed.


(** The loop when the provider denies every request. *)
Lemma table_loop_denied size o m : forall fuel l s,
  GFP_ATOMIC <> GFP_DMA ->
  0 <= o < BITS_PER_LONG ->
  (forall s2, order_for_size (S (Z.to_nat BITS_PER_LONG)) size 0 s2 = Done o s2) ->
  PAGE_SIZE < size ->
  0 <= l < 2 ^ BITS_PER_LONG ->
  retry_rounds l = Z.of_nat m ->
  (m <= fuel)%nat ->
  (forall i, (i < m)%nat -> reply i s = NULL) ->
  exists s',
    table_loop fuel size l s = Done (NULL, 0) s' /\
    provider_calls s' =
      repeat (LargeMalloc (ulong (Z.shiftl PAGE_SIZE o)) NULL) m ++ provider_calls s /\
    dde_linux26_page_cache s' = dde_linux26_page_cache s /\
    page_virtual s' = page_virtual s.
Proof.
  induction m as [| m IH]; intros fuel l s Hg Ho Hord Hsize Hl Hrounds Hfuel Hden.
  - pose proof (retry_rounds_pos l). lia.
  - destruct fuel as [| fuel]; [lia |].
    cbn [table_loop]. unfold bind at 1. rewrite Hord. unfold bind at 1.
    rewrite get_free_pages_atomic by assumption.
    rewrite (Hden 0%nat) by lia. rewrite Z.eqb_refl. cbn [negb].
    replace (PAGE_SIZE <? size) with true by (symmetry; apply Z.ltb_lt; assumption).
    cbn [negb]. cbv zeta.
    set (s1 := set_provider _ _ s).
    destruct m as [| m].
    + rewrite (ulong_pred_zero l) by (try assumption; lia).
      exists s1. split; [reflexivity |]. split; [reflexivity |]. split; reflexivity.
    + destruct (ulong_pred_nonzero l Hl) as [Hnz Hrr]; [lia |].
      destruct (Z.eqb_spec (ulong (l - 1)) 0) as [Hz | _]; [contradiction |].
      destruct (IH fuel (ulong (l - 1)) s1) as (s' & Hrun & Hcalls & Hc & Hv);
        try assumption; try lia.
      * apply (ulong_range word_fits).
      * intros i Hi. unfold s1. rewrite reply_tl.
        apply Hden. lia.
      * exists s'. split; [exact Hrun |]. split; [| split; assumption].
        rewrite Hcalls. unfold s1. simpl. f_equal. apply repeat_snoc_cons.
Qed.

Lemma hash_log2qty_range numentries :
  0 <= numentries < 2 ^ BITS_PER_LONG ->
  0 <= hash_log2qty numentries < BITS_PER_LONG.
Proof.
  intros Hn. unfold hash_log2qty. split; [apply Z.log2_nonneg |].
  destruct (Z.eqb_spec numentries 0) as [_ | Hnz].
  - change (Z.log2 1024) with 10. unfold PAGE_SHIFT in *. lia.
  - apply Z.log2_lt_pow2; lia.
Qed.

(** The order the loop asks for, for a [size] that a power of two within
    the word covers. *)
Lemma order_for_size_total size :
  size <= 2 ^ (BITS_PER_LONG - 1) ->
  exists o,
    0 <= o /\ o + PAGE_SHIFT < BITS_PER_LONG /\
    (forall s, order_for_size (S (Z.to_nat BITS_PER_LONG)) size 0 s = Done o s) /\
    size <= PAGE_SIZE * 2 ^ o /\
    (forall j, 0 <= j < o -> PAGE_SIZE * 2 ^ j < size).
Proof.
  intros Hsize.
  destruct (order_for_size_least word_fits (S (Z.to_nat BITS_PER_LONG)) size 0
              (World [] (fun _ => 0) 0 (fun _ => 0) [] []))
    as (o & Hrun & Hle & Hfit & Hcov & Hleast);
    try assumption; try (unfold PAGE_SHIFT in *; lia).
  exists o. split; [lia |]. split; [assumption |].
  split; [apply (order_for_size_state _ _ _ _ _ _ Hrun) | auto].
Qed.



(** X9: [alloc_large_system_hash] panics when the provider denies as many
    requests as a call makes at most: one request when the table fits a
    page, and otherwise [ilog2(numentries)] requests (or, that being 0, as
    many as the word has values).  All of them were for the bytes of the
    same order, the least that covers the table; no smaller one is tried. *)
Theorem alloc_large_system_hash_panics_after_last_denial :
  forall (fuel : nat) (bucketsize numentries : Z) (s : world) (tries : nat),
    GFP_ATOMIC <> GFP_DMA ->
    0 <= numentries < 2 ^ BITS_PER_LONG ->
    hash_size bucketsize numentries <= 2 ^ (BITS_PER_LONG - 1) ->
    hash_tries (hash_size bucketsize numentries) (hash_log2qty numentries)
      = Z.of_nat tries ->
    (tries <= fuel)%nat ->
    (forall i, (i < tries)%nat -> reply i s = NULL) ->
    exists s' order,
      alloc_large_system_hash fuel bucketsize numentries s = Panicked s' /\
      provider_calls s' =
        repeat (LargeMalloc (PAGE_SIZE * 2 ^ order) NULL) tries ++ provider_calls s /\
      hash_size bucketsize numentries <= PAGE_SIZE * 2 ^ order /\
      (forall j, 0 <= j < order -> PAGE_SIZE * 2 ^ j < hash_size bucketsize numentries) /\
      dde_linux26_page_cache s' = dde_linux26_page_cache s.
Proof.
  intros fuel bucketsize numentries s tries Hg Hn Hsize Htries Hfuel Hden.
  pose proof (hash_log2qty_range numentries Hn) as Hl.
  pose proof word_exceeds_width as Hw.
  destruct (order_for_size_total _ Hsize) as (o & Ho0 & Hofit & Hord & Hcov & Hleast).
  assert (Hloop : exists t l s',
             table_loop fuel (hash_size bucketsize numentries)
                        (hash_log2qty numentries) s = Done (NULL, l) s' /\
             t = NULL /\
             provider_calls s' =
               repeat (LargeMalloc (ulong (Z.shiftl PAGE_SIZE o)) NULL) tries
               ++ provider_calls s /\
             dde_linux26_page_cache s' = dde_linux26_page_cache s).
  { unfold hash_tries in Htries.
    destruct (Z.ltb_spec PAGE_SIZE (hash_size bucketsize numentries)) as [Hbig | Hsmall].
    - destruct (table_loop_denied (hash_size bucketsize numentries) o tries fuel
                  (hash_log2qty numentries) s)
        as (s' & Hrun & Hcalls & Hc & _);
        try assumption; try (unfold PAGE_SHIFT in *; lia).
      exists NULL, 0, s'. auto.
    - assert (tries = 1%nat) by lia. subst tries.
      destruct fuel as [| fuel]; [lia |].
      cbn [table_loop]. unfold bind at 1. rewrite Hord. unfold bind at 1.
      rewrite get_free_pages_atomic by (try assumption; unfold PAGE_SHIFT in *; lia).
      rewrite (Hden 0%nat) by lia. rewrite Z.eqb_refl. cbn [negb].
      replace (PAGE_SIZE <? hash_size bucketsize numentries) with false
        by (symmetry; apply Z.ltb_ge; assumption).
      cbn [negb]. eexists NULL, _, _. split; [reflexivity |].
      split; [reflexivity |]. split; reflexivity. }
  destruct Hloop as (t & l & s' & Hrun & _ & Hcalls & Hc).
  exists s', o. split.
  - unfold alloc_large_system_hash, bind. cbv zeta.
    change (ilog2 (if numentries =? 0 then 1024 else numentries))
      with (hash_log2qty numentries).
    rewrite shl_done by (unfold PAGE_SHIFT in *; lia).
    fold (hash_size bucketsize numentries). rewrite Hrun. reflexivity.
  - rewrite (request_size_exact word_fits) in Hcalls by assumption. auto.
Qed.



(** ** Address translation *)

(** X11: [page_to_phys] answers with a page frame: whatever the translator
    gives for the [virtual] of the page, the result is a value of
    [unsigned long] on a page boundary; when the translator's answer is a
    value of [unsigned long], the result is that answer less its offset in
    the page.  For a page that a lookup of [va] returned it is the frame of
    what the translator gives for the page boundary of [va]. *)
Theorem page_to_phys_is_page_frame :
  forall (__pa : Z -> Z) (p : Z) (s : world),
    Z.land (page_to_phys __pa p s) PAGE_MASK = page_to_phys __pa p s /\
    0 <= page_to_phys __pa p s < 2 ^ BITS_PER_LONG /\
    page_to_phys __pa p s mod PAGE_SIZE = 0 /\
    (0 <= __pa (page_virtual s p) < 2 ^ BITS_PER_LONG ->
     page_to_phys __pa p s
       = __pa (page_virtual s p) - __pa (page_virtual s p) mod PAGE_SIZE /\
     page_to_phys __pa p s <= __pa (page_virtual s p)
       < page_to_phys __pa p s + PAGE_SIZE) /\
    (forall va,
        dde_linux26_page_lookup va s = Some p ->
        page_to_phys __pa p s = Z.land (__pa (Z.land va PAGE_MASK)) PAGE_MASK).
Proof.
  intros __pa p s.
  assert (Hb : Z.land (page_to_phys __pa p s) PAGE_MASK = page_to_phys __pa p s)
    by apply land_PAGE_MASK_idem.
  split; [exact Hb |].
  pose proof (proj1 (page_boundary_iff word_fits _) Hb) as [Hrange Hmod].
  split; [exact Hrange |]. split; [exact Hmod |]. split.
  - intros Hpa. unfold page_to_phys.
    rewrite (land_PAGE_MASK word_fits), ulong_small by assumption.
    change PAGE_SIZE with 4096.
    pose proof (Z.mod_eq (__pa (page_virtual s p)) 4096).
    pose proof (Z.mod_pos_bound (__pa (page_virtual s p)) 4096). lia.
  - intros va Hva. unfold page_to_phys. rewrite lookup_first_match in Hva.
    apply first_match_sound in Hva as [_ Hv]. rewrite Hv. reflexivity.
Qed.

(** ** The number of entries *)

Lemma concat_insert_tail (c : list (list page_cache_entry)) i e tl :
  c !! i = Some (e :: tl) ->
  S (length (concat (<[i := tl]> c))) = length (concat c).
Proof.
  intros Hc. pose proof (lookup_lt_Some _ _ _ Hc) as Hlt.
  rewrite <- (concat_insert_cons (<[i := tl]> c) i e tl)
    by (apply list_lookup_insert_eq; assumption).
  rewrite list_insert_insert_eq, list_insert_id by assumption. reflexivity.
Qed.

Lemma alloc_counts order s :
  length (dde_linux26_page_cache s) = Z.to_nat DDE_PAGE_CACHE_SIZE ->
  cache_entries (allocated order s) = S (cache_entries s) /\
  length (dde_linux26_page_cache (allocated order s)) = Z.to_nat DDE_PAGE_CACHE_SIZE.
Proof.
  intros Hlen. split.
  - unfold cache_entries, allocated. cbn [dde_linux26_page_cache].
    apply concat_insert_cons. unfold bucket.
    destruct (lookup_lt_is_Some_2 (dde_linux26_page_cache s)
                (Z.to_nat (VIRT_TO_PAGEHASH (hd NULL (large_malloc_replies s)))))
      as [b Hb]; [apply hash_in_cache; assumption |].
    rewrite Hb. reflexivity.
  - simpl. rewrite length_insert. assumption.
Qed.

Lemma free_counts pg order s s' :
  __free_pages pg order s = Done tt s' ->
  (cache_entries s' <= cache_entries s <= S (cache_entries s'))%nat /\
  length (dde_linux26_page_cache s') = length (dde_linux26_page_cache s).
Proof.
  rewrite free_pages_unfold, remove_unfold.
  set (sc := set_provider _ _ s).
  change (page_virtual sc) with (page_virtual s). change (bucket sc) with (bucket s).
  destruct (bucket s (VIRT_TO_PAGEHASH (page_virtual s pg))) as [| e tl] eqn:Hb.
  { intros [= <-]. split; [unfold cache_entries; simpl; lia | reflexivity]. }
  destruct (page_virtual s (page e) =? Z.land (page_virtual s pg) PAGE_MASK).
  2:{ intros [= <-]. split; [unfold cache_entries; simpl; lia | reflexivity]. }
  intros [= <-]. unfold cache_entries. simpl. rewrite length_insert.
  split; [| reflexivity].
  unfold bucket in Hb.
  destruct (dde_linux26_page_cache s !! Z.to_nat (VIRT_TO_PAGEHASH (page_virtual s pg)))
    as [h |] eqn:Hl; [| discriminate].
  simpl in Hb. subst h.
  pose proof (concat_insert_tail _ _ _ _ Hl). lia.
Qed.

Lemma filter_drops_member (x : Z) (l : list Z) :
  In x l ->
  (length (List.filter (fun d => negb (d =? x)%Z) l) < length l)%nat.
Proof.
  induction l as [| y l IH]; intros Hin; [destruct Hin |]. simpl.
  pose proof (List.filter_length_le (fun d => negb (d =? x)) l) as Hle.
  destruct (Z.eqb_spec y x) as [-> | Hne]; simpl; [lia |].
  destruct Hin as [-> | Hin]; [contradiction |]. specialize (IH Hin). lia.
Qed.

Lemma facade_run_counts ops : forall s live s' live',
  facade_run ops (s, live) = Some (s', live') ->
  length (dde_linux26_page_cache s) = Z.to_nat DDE_PAGE_CACHE_SIZE ->
  (length live <= cache_entries s)%nat ->
  length (dde_linux26_page_cache s') = Z.to_nat DDE_PAGE_CACHE_SIZE /\
  (length live' <= cache_entries s')%nat /\
  (cache_entries s' <= cache_entries s + count_allocs ops)%nat.
Proof.
  induction ops as [| o ops IH]; intros s live s' live'; simpl.
  - intros [= <- <-] Hlen Hle. split; [assumption |]. split; lia.
  - destruct o as [gfp_mask order | pg order].
    + destruct (grant_ok s live); [| discriminate].
      destruct (__alloc_pages gfp_mask order NULL s) as [p s1 | | | |] eqn:Ha;
        try discriminate.
      apply alloc_pages_done in Ha as [-> ->].
      intros Hrun Hlen Hle. destruct (alloc_counts order s Hlen) as [Hcnt Hlen1].
      destruct (IH _ _ _ _ Hrun Hlen1) as (H1 & H2 & H3); [simpl; lia |].
      split; [assumption |]. split; [assumption | lia].
    + destruct (existsb (Z.eqb pg) live) eqn:Hex; [| discriminate].
      destruct (__free_pages pg order s) as [[] s1 | | | |] eqn:Hf; try discriminate.
      intros Hrun Hlen Hle. destruct (free_counts _ _ _ _ Hf) as [Hcnt Hlen1].
      apply existsb_exists in Hex as (d & Hd & Heq). apply Z.eqb_eq in Heq. subst d.
      pose proof (filter_drops_member pg live Hd) as Hdrop.
      destruct (IH _ _ _ _ Hrun) as (H1 & H2 & H3); [congruence | lia |].
      split; [assumption |]. split; [assumption | lia].
Qed.

(** X12: the entries of the cache over a run of a client that starts on the
    initialised cache.  Every [__alloc_pages] adds one entry, a denied one
    too, and [__free_pages] takes at most one; so the cache holds no more
    entries than allocations were made, and never fewer than the client
    holds descriptors. *)
Theorem cache_entries_bound_held_descriptors :
  forall (sb s0 s : world) (ops : list op) (live : list Z),
    length (dde_linux26_page_cache sb) = Z.to_nat DDE_PAGE_CACHE_SIZE ->
    dde_linux26_page_cache_init sb = Done 0 s0 ->
    facade_run ops (s0, []) = Some (s, live) ->
    (length live <= cache_entries s)%nat /\
    (cache_entries s <= count_allocs ops)%nat.
Proof.
  intros sb s0 s ops live Hlen Hinit Hrun.
  destruct (page_cache_init_empties_table_aux sb Hlen) as (s0' & Hinit' & Hlen0 & Hzero).
  rewrite Hinit in Hinit'. injection Hinit' as <-.
  destruct (facade_run_counts _ _ _ _ _ Hrun Hlen0) as (_ & H2 & H3);
    [simpl; lia |].
  split; [assumption | lia].
Qed.

(** ** Freeing the head of a chain *)

(** X13: [__free_pages] of a descriptor that heads its chain and lies on a
    page boundary.  The block goes back to the provider and the descriptor
    leaves the chain, the entries behind it staying as they are.  A lookup
    at any offset of its page then answers with the next entry of the chain
    at that address, an older registration of the same address if there is
    one, and with [NULL] if there is none. *)
Theorem free_pages_unlinks_head :
  forall (s : world) (d order : Z) (tl : list page_cache_entry),
    bucket s (VIRT_TO_PAGEHASH (page_virtual s d)) = {| page := d |} :: tl ->
    Z.land (page_virtual s d) PAGE_MASK = page_virtual s d ->
    exists s',
      __free_pages d order s = Done tt s' /\
      provider_calls s' = LargeFree (page_virtual s d) :: provider_calls s /\
      bucket s' (VIRT_TO_PAGEHASH (page_virtual s d)) = tl /\
      page_virtual s' = page_virtual s /\
      (forall o,
          0 <= o < PAGE_SIZE ->
          dde_linux26_page_lookup (page_virtual s d + o) s'
            = first_match (page_virtual s) (page_virtual s d) tl) /\
      ((forall e, In e tl -> page_virtual s (page e) <> page_virtual s d) ->
       forall o,
         0 <= o < PAGE_SIZE ->
         dde_linux26_page_lookup (page_virtual s d + o) s' = None).
Proof.
  intros s d order tl Hb Hal.
  pose proof (bucket_nonempty_lt _ _ _ _ Hb) as Hlt.
  set (sc := set_provider (large_malloc_replies s)
               (LargeFree (page_virtual s d) :: provider_calls s) s).
  set (s' := set_bucket (VIRT_TO_PAGEHASH (page_virtual s d)) tl sc).
  assert (Hfree : __free_pages d order s = Done tt s').
  { rewrite free_pages_unfold, remove_unfold. fold sc.
    change (page_virtual sc) with (page_virtual s).
    change (bucket sc) with (bucket s). rewrite Hb. cbn [page].
    rewrite Hal, Z.eqb_refl. reflexivity. }
  assert (Hb' : bucket s' (VIRT_TO_PAGEHASH (page_virtual s d)) = tl)
    by (apply bucket_set_bucket_eq; assumption).
  assert (Hlook : forall o, 0 <= o < PAGE_SIZE ->
             dde_linux26_page_lookup (page_virtual s d + o) s'
             = first_match (page_virtual s) (page_virtual s d) tl).
  { intros o Ho. rewrite lookup_first_match.
    rewrite (land_PAGE_MASK_offset word_fits), (VIRT_TO_PAGEHASH_offset word_fits)
      by assumption.
    rewrite Hb'. reflexivity. }
  exists s'. split; [exact Hfree |]. split; [reflexivity |]. split; [exact Hb' |].
  split; [reflexivity |]. split; [exact Hlook |].
  intros Hnone o Ho. rewrite Hlook by assumption. apply first_match_none. exact Hnone.
Qed.

End MoreProperties.

(** ** The further properties at concrete inputs *)

Section MoreOnLinux26I386.
#[local] Existing Instance linux26_i386.

Lemma word_fits_linux26_i386 : PAGE_SHIFT < BITS_PER_LONG.
Proof. reflexivity. Defined.

Lemma boot_world_empty replies i : bucket (boot_world replies) i = [].
Proof.
  unfold bucket.
  change (dde_linux26_page_cache (boot_world replies))
    with (replicate (Z.to_nat DDE_PAGE_CACHE_SIZE) (@nil page_cache_entry)).
  destruct (replicate _ _ !! _) as [h |] eqn:E; [| reflexivity].
  apply lookup_replicate in E as [-> _]. reflexivity.
Qed.

Lemma page_cache_init_empties_table_witness :
  dde_linux26_page_lookup 0x1000 (set_bucket 1 [{| page := 1 |}] handed_in_world) = Some 1 /\
  exists s0,
    dde_linux26_page_cache_init (set_bucket 1 [{| page := 1 |}] handed_in_world)
      = Done 0 s0 /\
    cache_entries s0 = 0%nat /\
    dde_linux26_page_lookup 0x1000 s0 = None.
Proof.
  split; [vm_compute; reflexivity |].
  destruct (page_cache_init_empties_table
              (set_bucket 1 [{| page := 1 |}] handed_in_world))
    as (s0 & Hinit & _ & Hzero & Hnone & _).
  - vm_compute. reflexivity.
  - exists s0. split; [exact Hinit |]. split; [exact Hzero | apply Hnone].
Defined.

Lemma lookup_and_remove_go_by_page_witness :
  dde_linux26_page_lookup 0x1010 (set_bucket 1 [{| page := 1 |}] handed_in_world)
  = dde_linux26_page_lookup 0x1ff0 (set_bucket 1 [{| page := 1 |}] handed_in_world).
Proof.
  apply (lookup_and_remove_go_by_page word_fits_linux26_i386
           (set_bucket 1 [{| page := 1 |}] handed_in_world) 0x1010 0x1ff0).
  - vm_compute. split; [discriminate | reflexivity].
  - vm_compute. split; [discriminate | reflexivity].
  - reflexivity.
Defined.

Lemma alloc_pages_registers_first_page_only_witness :
  exists s',
    __alloc_pages GFP_KERNEL 2 NULL (boot_world [0x10000]) = Done 0x100 s' /\
    dde_linux26_page_lookup (0x10000 + 0xfff) s' = Some 0x100 /\
    dde_linux26_page_lookup (0x10000 + 0x1000) s' = None.
Proof.
  destruct (alloc_pages_registers_first_page_only word_fits_linux26_i386
              GFP_KERNEL 2 NULL (boot_world [0x10000]))
    as (s' & Hrun & _ & _ & Hpages).
  - discriminate.
  - vm_compute. split; [discriminate | reflexivity].
  - vm_compute. reflexivity.
  - intros i e He. rewrite boot_world_empty in He. destruct He.
  - destruct Hpages as [Hfirst Hrest]; [reflexivity |].
    exists s'. split; [exact Hrun |]. split.
    + apply (Hfirst 0xfff). vm_compute. split; [discriminate | reflexivity].
    + transitivity (dde_linux26_page_lookup (0x10000 + 0x1000) (boot_world [0x10000])).
      * apply (Hrest 0x1000); [vm_compute; discriminate | vm_compute; reflexivity].
      * vm_compute. reflexivity.
Defined.

Lemma alloc_then_free_restores_table_witness :
  exists s1 s2,
    __alloc_pages GFP_KERNEL 0 NULL (boot_world [0x1000]) = Done 0x100 s1 /\
    dde_linux26_page_lookup 0x1000 s1 = Some 0x100 /\
    __free_pages 0x100 0 s1 = Done tt s2 /\
    dde_linux26_page_cache s2 = dde_linux26_page_cache (boot_world [0x1000]) /\
    provider_calls s2 = [LargeFree 0x1000; LargeMalloc 4096 0x1000].
Proof.
  destruct (alloc_then_free_restores_table GFP_KERNEL 0 0 NULL (boot_world [0x1000]))
    as (s1 & s2 & Halloc & Hfree & Hcache & Hcalls & _).
  - discriminate.
  - vm_compute. split; [discriminate | reflexivity].
  - vm_compute. reflexivity.
  - reflexivity.
  - exists s1, s2. split; [exact Halloc |].
    split; [| split; [exact Hfree | split; [exact Hcache | exact Hcalls]]].
    injection Halloc as <-. vm_compute. reflexivity.
Defined.


Lemma alloc_large_system_hash_panics_after_last_denial_witness :
  exists s',
    alloc_large_system_hash 16 4 4096 (boot_world []) = Panicked s' /\
    length (provider_calls s') = 12%nat.
Proof.
  destruct (alloc_large_system_hash_panics_after_last_denial word_fits_linux26_i386
              16 4 4096 (boot_world []) 12)
    as (s' & order & Hrun & Hcalls & _).
  - discriminate.
  - vm_compute. split; [discriminate | reflexivity].
  - vm_compute. discriminate.
  - vm_compute. reflexivity.
  - lia.
  - intros i Hi. unfold reply. simpl. destruct i; reflexivity.
  - exists s'. split; [exact Hrun |]. rewrite Hcalls. reflexivity.
Defined.


Lemma page_to_phys_is_page_frame_witness :
  page_to_phys (fun va => va + 0x100010) 1 handed_in_world = 0x101000.
Proof.
  destruct (page_to_phys_is_page_frame word_fits_linux26_i386
              (fun va => va + 0x100010) 1 handed_in_world)
    as (_ & _ & _ & Hframe & _).
  destruct Hframe as [Heq _].
  - vm_compute. split; [discriminate | reflexivity].
  - rewrite Heq. reflexivity.
Defined.

Lemma cache_entries_bound_held_descriptors_witness :
  exists s0 s,
    dde_linux26_page_cache_init (boot_world [0x1000; 0x401000]) = Done 0 s0 /\
    facade_run [Alloc GFP_KERNEL 0; Alloc GFP_KERNEL 0; Free 0x100 0] (s0, [])
      = Some (s, [0x102]) /\
    (1 <= cache_entries s)%nat /\ (cache_entries s <= 2)%nat.
Proof.
  eexists _, _. split; [reflexivity |]. split; [vm_compute; reflexivity |].
  refine (cache_entries_bound_held_descriptors
            (boot_world [0x1000; 0x401000]) _ _
            [Alloc GFP_KERNEL 0; Alloc GFP_KERNEL 0; Free 0x100 0] [0x102] _ _ _).
  - vm_compute. reflexivity.
  - reflexivity.
  - vm_compute. reflexivity.
Defined.

Lemma free_pages_unlinks_head_witness :
  exists s',
    __free_pages 2 0 (set_bucket 1 [{| page := 2 |}; {| page := 4 |}; {| page := 1 |}]
                        handed_in_world) = Done tt s' /\
    bucket s' 1 = [{| page := 4 |}; {| page := 1 |}] /\
    dde_linux26_page_lookup (0x1000 + 0x20) s' = Some 1.
Proof.
  destruct (free_pages_unlinks_head word_fits_linux26_i386
              (set_bucket 1 [{| page := 2 |}; {| page := 4 |}; {| page := 1 |}]
                 handed_in_world)
              2 0 [{| page := 4 |}; {| page := 1 |}])
    as (s' & Hfree & _ & Hb & _ & Hlook & _).
  - vm_compute. reflexivity.
  - reflexivity.
  - exists s'. split; [exact Hfree |]. split; [exact Hb |].
    transitivity (first_match handed_in 0x1000 [{| page := 4 |}; {| page := 1 |}]);
      [| reflexivity].
    apply (Hlook 0x20). vm_compute. split; [discriminate | reflexivity].
Defined.

End MoreOnLinux26I386.
